(** * data_processing_tool/static/js/script.js

    A shallow embedding of the browser script of the data preparation tool:
    the three script variables, the part of the page the script reads and
    writes, its helper functions and its three asynchronous handlers.

    Conventions.
    - A handler is an [async] function with one network round trip.  It is
      embedded in two segments that each run without interruption: the part
      up to the [fetch] (which produces the request) and the part that runs
      once the round trip has settled (which takes the outcome as input).
      No statement of the source lies between [await fetch] and
      [await response.json()] that touches the page, so the two awaits are
      one settling point.
    - [try]/[catch]/[finally] is embedded with a state-and-exception monad:
      a statement that throws keeps every assignment made before it.
    - Markup that the script only writes (the log, the plot and the
      statistics) is embedded as the template it is written from, a tree
      with the interpolated strings as leaves; [markup] gives back the
      string that is assigned to [innerHTML], character by character.
    - Markup that the script reads back (the selects and the checkboxes) is
      embedded as the elements the browser builds from it.  The script
      splices column names into it as they are, so the name an element
      carries is the name as the parser reads it, [parsed_name].  This is
      exact for a name without markup characters and for one whose only
      markup is the reference [&amp;] or an ampersand that starts no
      reference; a name with another reference, a quote or a tag changes
      the controls in ways this embedding does not follow, and a statement
      that depends on the name a control carries is made for names without
      markup characters.
    - HTML that the server sends ready-made is kept as a string.
    - JSON data is typed by the fields the script reads; a field the script
      dereferences is optional, and dereferencing a missing one throws.
    - Events of the page are the steps of a transition system; several
      round trips may be in flight at once, as nothing in the script
      disables a button while it waits. *)

From Stdlib Require Import Ascii.
From stdpp Require Import base option list strings pretty gmap.

Open Scope string_scope.

(** ** Data received from the server *)

(** [data.columns] *)
Record Columns := {
  c_all : list string;
  c_numeric : list string;
  c_categorical : list string
}.

(** [data.insights] *)
Record Insights := {
  description : string;
  info : string
}.

(** Body of the reply to [/upload]. *)
Record UploadData := {
  u_error : option string;
  u_filename : string;
  u_columns : option Columns;
  u_preview : string;
  u_insights : option Insights
}.

(** Body of the reply to [/preprocess]. *)
Record PreprocessData := {
  p_error : option string;
  p_cleaned_filename : string;
  p_log : option (list string);
  p_preview : string
}.

(** Body of the reply to [/analyze]; [a_stats] in the order of
    [Object.entries]. *)
Record AnalyzeData := {
  a_error : option string;
  a_image : string;
  a_stats : option (list (string * string))
}.

(** What [response.json()] settles to. *)
Inductive parsed (A : Type) :=
| BadJson (message : string)
| Json (data : A).
Arguments BadJson {A} message.
Arguments Json {A} data.

Record Response (A : Type) := {
  ok : bool;
  status : nat;
  statusText : string;
  body : parsed A
}.
Arguments ok {A} _.
Arguments status {A} _.
Arguments statusText {A} _.
Arguments body {A} _.
Arguments Build_Response {A} _ _ _ _.

(** What [fetch] settles to. *)
Inductive fetched (A : Type) :=
| NetworkError (message : string)
| Resolved (response : Response A).
Arguments NetworkError {A} message.
Arguments Resolved {A} response.

(** ** Data sent to the server *)

(** The [actions] object of the preprocess handler. *)
Record Actions := {
  missing_values : gmap string string;
  outliers : list string;
  normalize : list string
}.

Inductive request :=
| PostUpload
| PostPreprocess (filename : option string) (actions : Actions)
| PostAnalyze (filename : option string) (column plot_type : string).

(** ** The page *)

(** Markup written through a template literal: the literal as a tree, the
    interpolated strings as its [Text] leaves. *)
#[warnings="-register-all"]
Inductive html :=
| Text (s : string)
| Elem (tag : string) (attrs : list (string * string)) (children : list html).

(** The double quote, and a string between double quotes. *)
Definition dq : string := String (ascii_of_nat 34) EmptyString.

Definition q (s : string) : string := dq +:+ s +:+ dq.

(** [name="value"] for each attribute, each after a space. *)
Fixpoint attributes_onto (attrs : list (string * string)) (rest : string) : string :=
  match attrs with
  | [] => rest
  | (name, value) :: attrs' =>
      " " +:+ name +:+ "=" +:+ dq +:+ value +:+ dq +:+ attributes_onto attrs' rest
  end.

(** The string of a tree, followed by [rest].  An interpolated string is
    written as it is; [img] is written without an end tag. *)
Fixpoint markup_onto (h : html) (rest : string) : string :=
  match h with
  | Text s => s +:+ rest
  | Elem tag attrs children =>
      "<" +:+ tag +:+
      attributes_onto attrs
        (">" +:+
         (if bool_decide (tag = "img") then rest
          else (fix kids (l : list html) : string :=
                  match l with
                  | [] => "</" +:+ tag +:+ ">" +:+ rest
                  | k :: l' => markup_onto k (kids l')
                  end) children))
  end.

Definition markup (h : html) : string := markup_onto h "".

(** [pieces.join('')] *)
Definition join (pieces : list string) : string := foldr String.append "" pieces.

(** The string assigned to [innerHTML] for a list of trees. *)
Definition written (content : list html) : string := join (markup <$> content).

(** A [<select>]: its options as (value, label) and the chosen value. *)
Record Select := {
  sel_class : string;
  sel_column : string;              (* data-column *)
  sel_options : list (string * string);
  sel_value : string
}.

(** A select as it is right after its markup is parsed: the first option
    is chosen, and the value is the empty string when there is none. *)
Definition fresh_select (cls col : string) (opts : list (string * string)) : Select :=
  {| sel_class := cls; sel_column := col; sel_options := opts;
     sel_value := match opts with [] => "" | o :: _ => o.1 end |}.

(** [<div class="option-group"><label>..</label><select ..>..</select></div>] *)
Record OptionGroup := {
  og_label : string;
  og_select : Select
}.

(** [<div class="checkbox-group"><input type="checkbox" ..><label for=..>..</label></div>] *)
Record CheckboxGroup := {
  cb_id : string;
  cb_class : string;
  cb_column : string;               (* data-column *)
  cb_label : string;
  cb_checked : bool
}.

Record ui := {
  (* script variables *)
  currentFilename : option string;
  currentCleanedFilename : option string;
  columns : option Columns;
  (* style.display, by element id *)
  display : gmap string string;
  (* textContent, or innerHTML taken verbatim from the server, by element id *)
  inner : gmap string string;
  downloadLink_href : string;
  preprocess_log : list html;
  plot_result : list html;
  stats_result : list html;
  missing_values_options : list OptionGroup;
  outlier_options : list CheckboxGroup;
  normalize_options : list CheckboxGroup;
  columnSelect : Select;
  plotTypeSelect : Select
}.

(** The state when [DOMContentLoaded] fires: [columns = {}] has no
    [numeric] and no [all], as a missing [columns] has none.  The markup of
    the page is not among the sources: the containers and selects that the
    script fills are taken to start empty and no inline style is set. *)
Definition initial : ui :=
  {| currentFilename := None; currentCleanedFilename := None; columns := None;
     display := ∅; inner := ∅; downloadLink_href := "";
     preprocess_log := []; plot_result := []; stats_result := [];
     missing_values_options := []; outlier_options := []; normalize_options := [];
     columnSelect := fresh_select "" "" [];
     plotTypeSelect := fresh_select "" "" [] |}.

(** *** Assignments *)

Definition set_currentFilename (v : option string) (s : ui) : ui :=
  {| currentFilename := v; currentCleanedFilename := currentCleanedFilename s;
     columns := columns s; display := display s; inner := inner s;
     downloadLink_href := downloadLink_href s; preprocess_log := preprocess_log s;
     plot_result := plot_result s; stats_result := stats_result s;
     missing_values_options := missing_values_options s;
     outlier_options := outlier_options s; normalize_options := normalize_options s;
     columnSelect := columnSelect s; plotTypeSelect := plotTypeSelect s |}.

Definition set_currentCleanedFilename (v : option string) (s : ui) : ui :=
  {| currentFilename := currentFilename s; currentCleanedFilename := v;
     columns := columns s; display := display s; inner := inner s;
     downloadLink_href := downloadLink_href s; preprocess_log := preprocess_log s;
     plot_result := plot_result s; stats_result := stats_result s;
     missing_values_options := missing_values_options s;
     outlier_options := outlier_options s; normalize_options := normalize_options s;
     columnSelect := columnSelect s; plotTypeSelect := plotTypeSelect s |}.

Definition set_columns (v : option Columns) (s : ui) : ui :=
  {| currentFilename := currentFilename s;
     currentCleanedFilename := currentCleanedFilename s;
     columns := v; display := display s; inner := inner s;
     downloadLink_href := downloadLink_href s; preprocess_log := preprocess_log s;
     plot_result := plot_result s; stats_result := stats_result s;
     missing_values_options := missing_values_options s;
     outlier_options := outlier_options s; normalize_options := normalize_options s;
     columnSelect := columnSelect s; plotTypeSelect := plotTypeSelect s |}.

Definition set_display (id v : string) (s : ui) : ui :=
  {| currentFilename := currentFilename s;
     currentCleanedFilename := currentCleanedFilename s;
     columns := columns s; display := <[id := v]> (display s); inner := inner s;
     downloadLink_href := downloadLink_href s; preprocess_log := preprocess_log s;
     plot_result := plot_result s; stats_result := stats_result s;
     missing_values_options := missing_values_options s;
     outlier_options := outlier_options s; normalize_options := normalize_options s;
     columnSelect := columnSelect s; plotTypeSelect := plotTypeSelect s |}.

Definition set_inner (id v : string) (s : ui) : ui :=
  {| currentFilename := currentFilename s;
     currentCleanedFilename := currentCleanedFilename s;
     columns := columns s; display := display s; inner := <[id := v]> (inner s);
     downloadLink_href := downloadLink_href s; preprocess_log := preprocess_log s;
     plot_result := plot_result s; stats_result := stats_result s;
     missing_values_options := missing_values_options s;
     outlier_options := outlier_options s; normalize_options := normalize_options s;
     columnSelect := columnSelect s; plotTypeSelect := plotTypeSelect s |}.

Definition set_downloadLink_href (v : string) (s : ui) : ui :=
  {| currentFilename := currentFilename s;
     currentCleanedFilename := currentCleanedFilename s;
     columns := columns s; display := display s; inner := inner s;
     downloadLink_href := v; preprocess_log := preprocess_log s;
     plot_result := plot_result s; stats_result := stats_result s;
     missing_values_options := missing_values_options s;
     outlier_options := outlier_options s; normalize_options := normalize_options s;
     columnSelect := columnSelect s; plotTypeSelect := plotTypeSelect s |}.

Definition set_preprocess_log (v : list html) (s : ui) : ui :=
  {| currentFilename := currentFilename s;
     currentCleanedFilename := currentCleanedFilename s;
     columns := columns s; display := display s; inner := inner s;
     downloadLink_href := downloadLink_href s; preprocess_log := v;
     plot_result := plot_result s; stats_result := stats_result s;
     missing_values_options := missing_values_options s;
     outlier_options := outlier_options s; normalize_options := normalize_options s;
     columnSelect := columnSelect s; plotTypeSelect := plotTypeSelect s |}.

Definition set_plot_result (v : list html) (s : ui) : ui :=
  {| currentFilename := currentFilename s;
     currentCleanedFilename := currentCleanedFilename s;
     columns := columns s; display := display s; inner := inner s;
     downloadLink_href := downloadLink_href s; preprocess_log := preprocess_log s;
     plot_result := v; stats_result := stats_result s;
     missing_values_options := missing_values_options s;
     outlier_options := outlier_options s; normalize_options := normalize_options s;
     columnSelect := columnSelect s; plotTypeSelect := plotTypeSelect s |}.

Definition set_stats_result (v : list html) (s : ui) : ui :=
  {| currentFilename := currentFilename s;
     currentCleanedFilename := currentCleanedFilename s;
     columns := columns s; display := display s; inner := inner s;
     downloadLink_href := downloadLink_href s; preprocess_log := preprocess_log s;
     plot_result := plot_result s; stats_result := v;
     missing_values_options := missing_values_options s;
     outlier_options := outlier_options s; normalize_options := normalize_options s;
     columnSelect := columnSelect s; plotTypeSelect := plotTypeSelect s |}.

Definition set_missing_values_options (v : list OptionGroup) (s : ui) : ui :=
  {| currentFilename := currentFilename s;
     currentCleanedFilename := currentCleanedFilename s;
     columns := columns s; display := display s; inner := inner s;
     downloadLink_href := downloadLink_href s; preprocess_log := preprocess_log s;
     plot_result := plot_result s; stats_result := stats_result s;
     missing_values_options := v;
     outlier_options := outlier_options s; normalize_options := normalize_options s;
     columnSelect := columnSelect s; plotTypeSelect := plotTypeSelect s |}.

Definition set_outlier_options (v : list CheckboxGroup) (s : ui) : ui :=
  {| currentFilename := currentFilename s;
     currentCleanedFilename := currentCleanedFilename s;
     columns := columns s; display := display s; inner := inner s;
     downloadLink_href := downloadLink_href s; preprocess_log := preprocess_log s;
     plot_result := plot_result s; stats_result := stats_result s;
     missing_values_options := missing_values_options s;
     outlier_options := v; normalize_options := normalize_options s;
     columnSelect := columnSelect s; plotTypeSelect := plotTypeSelect s |}.

Definition set_normalize_options (v : list CheckboxGroup) (s : ui) : ui :=
  {| currentFilename := currentFilename s;
     currentCleanedFilename := currentCleanedFilename s;
     columns := columns s; display := display s; inner := inner s;
     downloadLink_href := downloadLink_href s; preprocess_log := preprocess_log s;
     plot_result := plot_result s; stats_result := stats_result s;
     missing_values_options := missing_values_options s;
     outlier_options := outlier_options s; normalize_options := v;
     columnSelect := columnSelect s; plotTypeSelect := plotTypeSelect s |}.

Definition set_columnSelect (v : Select) (s : ui) : ui :=
  {| currentFilename := currentFilename s;
     currentCleanedFilename := currentCleanedFilename s;
     columns := columns s; display := display s; inner := inner s;
     downloadLink_href := downloadLink_href s; preprocess_log := preprocess_log s;
     plot_result := plot_result s; stats_result := stats_result s;
     missing_values_options := missing_values_options s;
     outlier_options := outlier_options s; normalize_options := normalize_options s;
     columnSelect := v; plotTypeSelect := plotTypeSelect s |}.

Definition set_plotTypeSelect (v : Select) (s : ui) : ui :=
  {| currentFilename := currentFilename s;
     currentCleanedFilename := currentCleanedFilename s;
     columns := columns s; display := display s; inner := inner s;
     downloadLink_href := downloadLink_href s; preprocess_log := preprocess_log s;
     plot_result := plot_result s; stats_result := stats_result s;
     missing_values_options := missing_values_options s;
     outlier_options := outlier_options s; normalize_options := normalize_options s;
     columnSelect := columnSelect s; plotTypeSelect := v |}.

(** ** Statements: state and exceptions *)

Inductive completion (A : Type) :=
| Normal (a : A)
| Thrown (message : string).
Arguments Normal {A} a.
Arguments Thrown {A} message.

Definition M (A : Type) : Type := ui → completion A * ui.

#[global] Instance M_ret : MRet M := λ A (a : A) s, (Normal a, s).

#[global] Instance M_bind : MBind M := λ A B (k : A → M B) (m : M A) s,
  match m s with
  | (Normal a, s') => k a s'
  | (Thrown e, s') => (Thrown e, s')
  end.

(** [throw new Error(message)] *)
Definition throw {A} (message : string) : M A := λ s, (Thrown message, s).

Definition get {A} (f : ui → A) : M A := λ s, (Normal (f s), s).

Definition assign (f : ui → ui) : M unit := λ s, (Normal tt, f s).

(** [try { body } catch (error) { handler(error.message) } finally { final }] *)
Definition try_catch_finally (body : M unit) (handler : string → M unit)
    (final : M unit) : M unit :=
  λ s, match body s with
       | (Normal _, s1) => final s1
       | (Thrown e, s1) =>
           match handler e s1 with
           | (Normal _, s2) => final s2
           | (Thrown e', s2) =>
               match final s2 with
               | (Normal _, s3) => (Thrown e', s3)
               | (Thrown e'', s3) => (Thrown e'', s3)
               end
           end
       end.

(** [l.forEach(f)] *)
Fixpoint forEach {A} (l : list A) (f : A → M unit) : M unit :=
  match l with
  | [] => mret tt
  | x :: l' => f x ;; forEach l' f
  end.

(** The message of the [TypeError] raised by reading property [prop] of
    [undefined]. *)
Definition type_error (prop : string) : string :=
  "Cannot read properties of undefined (reading '" +:+ prop +:+ "')".

(** [o.prop] where [o] may be [undefined]. *)
Definition deref {A} (o : option A) (prop : string) : M A :=
  match o with
  | Some a => mret a
  | None => throw (type_error prop)
  end.

(** A string in a condition: the empty string and a missing field are
    falsy. *)
Definition truthy (o : option string) : option string :=
  match o with
  | Some s => if decide (s = "") then None else Some s
  | None => None
  end.

(** [await fetch(..)] and [await response.json()], given what they settle
    to. *)
Definition await_fetch {A} (r : fetched A) : M (Response A) :=
  match r with
  | NetworkError e => throw e
  | Resolved response => mret response
  end.

Definition json {A} (response : Response A) : M A :=
  match body response with
  | BadJson e => throw e
  | Json data => mret data
  end.

(** [arr.includes(x)] *)
Definition includes (l : list string) (x : string) : bool := bool_decide (x ∈ l).

(** ** Names spliced into markup *)

(** The characters that do not stand for themselves where the script
    splices a name, in text and between the double quotes of an attribute:
    the ampersand, the less-than sign, the double quote, NUL and the
    carriage return. *)
Definition markup_character (c : ascii) : bool :=
  bool_decide (nat_of_ascii c ∈ [38; 60; 34; 0; 13]).

(** A name without markup characters: the parser reads it as it is. *)
Fixpoint plain (name : string) : bool :=
  match name with
  | EmptyString => true
  | String c name' => negb (markup_character c) && plain name'
  end.

(** The name as the parser reads it, in text and in an attribute value: the
    reference [&amp;] stands for an ampersand.  Exact for a plain name and
    for a name whose only markup characters are ampersands that start that
    reference or start no reference at all (as in [a&b], where the
    ampersand is kept); for a name with other markup the name is left as it
    is and the embedding of the controls is not exact. *)
Fixpoint parsed_name (name : string) : string :=
  match name with
  | String "&"%char (String "a"%char (String "m"%char (String "p"%char
      (String ";"%char name')))) =>
      String "&"%char (parsed_name name')
  | String c name' => String c (parsed_name name')
  | EmptyString => EmptyString
  end.

(** ** UI helper functions *)

(** [element.style.display = show ? 'block' : 'none'] *)
Definition showLoader (element : string) (show : bool) : M unit :=
  assign (set_display element (if show then "block" else "none")).

(** [select.innerHTML = ..]: the options are replaced and the first one is
    chosen. *)
Definition with_options (opts : list (string * string)) (sel : Select) : Select :=
  fresh_select (sel_class sel) (sel_column sel) opts.

Definition numeric_plot_options : list (string * string) :=
  [("histogram", "Histogram"); ("boxplot", "Box Plot")].

Definition categorical_plot_options : list (string * string) :=
  [("count", "Count Plot")].

(** [columns] stands for the script variable; reading [numeric] of a missing
    structure is the [TypeError] of the source. *)
Definition updatePlotOptions (selectedColumn : string) : M unit :=
  cols ← get columns;
  c ← deref cols "numeric";
  assign (λ s, set_plotTypeSelect
    (with_options
       (if includes (c_numeric c) selectedColumn
        then numeric_plot_options
        else categorical_plot_options)
       (plotTypeSelect s)) s).

(** The markup added to [missingContainer] for one column. *)
Definition missing_value_options (isNumeric : bool) : list (string * string) :=
  [("none", "None")]
  ++ (if isNumeric
      then [("mean", "Fill with Mean"); ("median", "Fill with Median")]
      else [])
  ++ [("mode", "Fill with Mode"); ("remove", "Remove Row")].

(** The elements built from lines 157-165 with [col] spliced in: the label
    and [data-column] are the name as parsed. *)
Definition missing_value_group (isNumeric : bool) (col : string) : OptionGroup :=
  {| og_label := parsed_name col;
     og_select := fresh_select "missing-value-select" (parsed_name col)
                    (missing_value_options isNumeric) |}.

(** The elements built from lines 167 and 168 with [col] spliced in. *)
Definition outlier_group (col : string) : CheckboxGroup :=
  {| cb_id := "outlier-" +:+ parsed_name col; cb_class := "outlier-checkbox";
     cb_column := parsed_name col; cb_label := parsed_name col;
     cb_checked := false |}.

Definition normalize_group (col : string) : CheckboxGroup :=
  {| cb_id := "norm-" +:+ parsed_name col; cb_class := "normalize-checkbox";
     cb_column := parsed_name col; cb_label := parsed_name col;
     cb_checked := false |}.

(** The body of the [forEach] of lines 154-170. *)
Definition populate_column (cols : Columns) (col : string) : M unit :=
  let isNumeric := includes (c_numeric cols) col in
  assign (λ s, set_missing_values_options
    (missing_values_options s ++ [missing_value_group isNumeric col]) s) ;;
  if isNumeric then
    assign (λ s, set_outlier_options
      (outlier_options s ++ [outlier_group col]) s) ;;
    assign (λ s, set_normalize_options
      (normalize_options s ++ [normalize_group col]) s)
  else mret tt.

Definition populatePreprocessingTools (cols : option Columns) : M unit :=
  assign (set_missing_values_options []) ;;
  assign (set_outlier_options []) ;;
  assign (set_normalize_options []) ;;
  c ← deref cols "all";
  forEach (c_all c) (populate_column c).

Definition displayInitialData (data : UploadData) : M unit :=
  assign (set_inner "filename-display" (u_filename data)) ;;
  assign (set_inner "data-preview" (u_preview data)) ;;
  insights ← deref (u_insights data) "description";
  assign (set_inner "data-description" (description insights)) ;;
  assign (set_inner "data-info" (info insights)) ;;
  cols ← get columns;
  populatePreprocessingTools cols ;;
  c ← deref cols "all";
  assign (λ s, set_columnSelect
    (with_options (map (λ col, (parsed_name col, parsed_name col)) (c_all c))
                  (columnSelect s)) s) ;;
  selected ← get (λ s, sel_value (columnSelect s));
  updatePlotOptions selected.

(** ** 1. File upload *)

(** Lines 21-30: up to the [fetch]. *)
Definition upload_submit : M request :=
  showLoader "loader" true ;;
  assign (set_display "main-content" "none") ;;
  assign (set_inner "upload-error" "") ;;
  assign (set_display "download-container" "none") ;;
  mret PostUpload.

(** Lines 30-46: from the settling of the [fetch]. *)
Definition upload_settled (r : fetched UploadData) : M unit :=
  try_catch_finally
    (response ← await_fetch r;
     (if negb (ok response)
      then throw ("Server error: " +:+ statusText response)
      else mret tt) ;;
     data ← json response;
     match truthy (u_error data) with
     | Some e => throw e
     | None =>
         assign (set_currentFilename (Some (u_filename data))) ;;
         assign (set_currentCleanedFilename (Some (u_filename data))) ;;
         assign (set_columns (u_columns data)) ;;
         displayInitialData data ;;
         assign (set_display "main-content" "block")
     end)
    (λ error, assign (set_inner "upload-error" ("Upload failed: " +:+ error)))
    (showLoader "loader" false).

(** ** 2. Preprocessing *)

(** [object[key] = value] for a string [value] on an object literal used as
    a map.  The key [__proto__] reaches the setter that every object literal
    inherits, which ignores a value that is not an object: no own property
    is created, and [JSON.stringify] writes own properties only.  Every
    other key becomes an own property. *)
Definition assign_property (key value : string) (object : gmap string string)
    : gmap string string :=
  if decide (key = "__proto__") then object else <[key := value]> object.

(** Line 59: [missing_values] is filled select by select, a later select of
    the same column overwriting an earlier one. *)
Definition collect_missing_values (groups : list OptionGroup) : gmap string string :=
  foldl (λ acc g,
           let s := og_select g in
           if decide (sel_value s ≠ "none")
           then assign_property (sel_column s) (sel_value s) acc
           else acc)
        ∅ groups.

(** Lines 60 and 61: the columns of the checked boxes, in document order. *)
Definition collect_checked (boxes : list CheckboxGroup) : list string :=
  cb_column <$> filter (λ c, cb_checked c = true) boxes.

(** Lines 58-61. *)
Definition collect_actions (s : ui) : Actions :=
  {| missing_values := collect_missing_values (missing_values_options s);
     outliers := collect_checked (outlier_options s);
     normalize := collect_checked (normalize_options s) |}.

(** Lines 51-68: up to the [fetch]. *)
Definition preprocess_click : M request :=
  showLoader "preprocess-loader" true ;;
  assign (set_preprocess_log []) ;;
  assign (set_display "download-container" "none") ;;
  actions ← get collect_actions;
  filename ← get currentFilename;
  mret (PostPreprocess filename actions).

Definition log_entry (item : string) : html := Elem "div" [] [Text item].

Definition preprocess_failure (message : string) : html :=
  Elem "div" [("class", "error-message")]
    [Text ("Preprocessing failed: " +:+ message)].

(** Lines 64-84: from the settling of the [fetch]. *)
Definition preprocess_settled (r : fetched PreprocessData) : M unit :=
  try_catch_finally
    (response ← await_fetch r;
     data ← json response;
     match truthy (p_error data) with
     | Some e => throw e
     | None =>
         assign (set_currentCleanedFilename (Some (p_cleaned_filename data))) ;;
         log ← deref (p_log data) "map";
         assign (set_preprocess_log (log_entry <$> log)) ;;
         assign (set_inner "data-preview" (p_preview data)) ;;
         assign (set_downloadLink_href ("/download/" +:+ p_cleaned_filename data)) ;;
         assign (set_display "download-container" "block")
     end)
    (λ error, assign (set_preprocess_log [preprocess_failure error]))
    (showLoader "preprocess-loader" false).

(** ** 3. Analysis and visualisation *)

(** Lines 89-108: up to the [fetch]. *)
Definition analyze_click : M request :=
  showLoader "analysis-loader" true ;;
  assign (set_display "analysis-results-container" "none") ;;
  assign (set_plot_result []) ;;
  assign (set_stats_result []) ;;
  filename ← get currentCleanedFilename;
  column ← get (λ s, sel_value (columnSelect s));
  plot_type ← get (λ s, sel_value (plotTypeSelect s));
  mret (PostAnalyze filename column plot_type).

Definition plot_image (image : string) : html :=
  Elem "img" [("src", "data:image/png;base64," +:+ image); ("alt", "Analysis Plot")] [].

Definition stats_heading (column : string) : html :=
  Elem "h4" [] [Text ("Statistics for " +:+ column)].

Definition stat_item (kv : string * string) : html :=
  Elem "div" [("class", "stat-item")]
    [Elem "span" [] [Text kv.1]; Elem "span" [] [Text kv.2]].

Definition analysis_failed : html :=
  Elem "div" [("class", "error-message")] [Text "Analysis Failed"].

(** [Object.entries(undefined)] throws. *)
Definition entries (stats : option (list (string * string))) : M (list (string * string)) :=
  match stats with
  | Some kvs => mret kvs
  | None => throw "Cannot convert undefined or null to object"
  end.

(** Lines 100-131: from the settling of the [fetch]. *)
Definition analyze_settled (r : fetched AnalyzeData) : M unit :=
  try_catch_finally
    (response ← await_fetch r;
     data ← json response;
     (if negb (ok response)
      then throw (default ("Server responded with status: " +:+ pretty (status response))
                          (truthy (a_error data)))
      else mret tt) ;;
     assign (set_plot_result [plot_image (a_image data)]) ;;
     column ← get (λ s, sel_value (columnSelect s));
     kvs ← entries (a_stats data);
     assign (set_stats_result (stats_heading column :: (stat_item <$> kvs))) ;;
     assign (set_display "analysis-results-container" "grid"))
    (λ error,
       assign (set_display "analysis-results-container" "grid") ;;
       assign (set_plot_result [analysis_failed]) ;;
       assign (set_stats_result [stat_item ("Error", error)]))
    (showLoader "analysis-loader" false).

(** ** 4. The change listener of the column select *)

Definition column_change : M unit :=
  selected ← get (λ s, sel_value (columnSelect s));
  updatePlotOptions selected.

(** ** The page as a transition system *)

(** A world is the page together with the round trips in flight and the
    requests sent so far (latest first). *)
Record world := {
  page : ui;
  uploads_in_flight : nat;
  preprocessings_in_flight : nat;
  analyses_in_flight : nat;
  sent : list request
}.

Definition boot : world :=
  {| page := initial; uploads_in_flight := 0; preprocessings_in_flight := 0;
     analyses_in_flight := 0; sent := [] |}.

Inductive event :=
| SubmitUpload
| UploadSettles (r : fetched UploadData)
| ClickPreprocess
| PreprocessSettles (r : fetched PreprocessData)
| ClickAnalyze
| AnalyzeSettles (r : fetched AnalyzeData)
| ChooseColumn (i : nat)            (* the user picks option [i] of the column select *)
| ChoosePlotType (i : nat)          (* .. of the plot type select *)
| ChooseMissing (k i : nat)         (* .. option [i] of the [k]-th missing-value select *)
| ToggleOutlier (k : nat)           (* the user clicks the [k]-th outlier checkbox *)
| ToggleNormalize (k : nat).

Definition choose (i : nat) (sel : Select) : option Select :=
  o ← sel_options sel !! i;
  Some {| sel_class := sel_class sel; sel_column := sel_column sel;
          sel_options := sel_options sel; sel_value := o.1 |}.

Definition toggle (b : CheckboxGroup) : CheckboxGroup :=
  {| cb_id := cb_id b; cb_class := cb_class b; cb_column := cb_column b;
     cb_label := cb_label b; cb_checked := negb (cb_checked b) |}.

Definition with_page (s : ui) (w : world) : world :=
  {| page := s; uploads_in_flight := uploads_in_flight w;
     preprocessings_in_flight := preprocessings_in_flight w;
     analyses_in_flight := analyses_in_flight w; sent := sent w |}.

(** The request of a first segment is recorded; a first segment of this
    script never throws. *)
Definition post (c : completion request * ui) (w : world) : list request :=
  match c.1 with
  | Normal q => q :: sent w
  | Thrown _ => sent w
  end.

(** One event.  [None]: the event cannot happen in this world (nothing in
    flight to settle, no such option or checkbox).  An exception that
    leaves a listener is reported by the browser and the page stays as the
    listener left it. *)
Definition step (e : event) (w : world) : option world :=
  match e with
  | SubmitUpload =>
      let c := upload_submit (page w) in
      Some {| page := c.2; uploads_in_flight := S (uploads_in_flight w);
              preprocessings_in_flight := preprocessings_in_flight w;
              analyses_in_flight := analyses_in_flight w; sent := post c w |}
  | UploadSettles r =>
      match uploads_in_flight w with
      | 0 => None
      | S n =>
          Some {| page := (upload_settled r (page w)).2; uploads_in_flight := n;
                  preprocessings_in_flight := preprocessings_in_flight w;
                  analyses_in_flight := analyses_in_flight w; sent := sent w |}
      end
  | ClickPreprocess =>
      let c := preprocess_click (page w) in
      Some {| page := c.2; uploads_in_flight := uploads_in_flight w;
              preprocessings_in_flight := S (preprocessings_in_flight w);
              analyses_in_flight := analyses_in_flight w; sent := post c w |}
  | PreprocessSettles r =>
      match preprocessings_in_flight w with
      | 0 => None
      | S n =>
          Some {| page := (preprocess_settled r (page w)).2;
                  uploads_in_flight := uploads_in_flight w;
                  preprocessings_in_flight := n;
                  analyses_in_flight := analyses_in_flight w; sent := sent w |}
      end
  | ClickAnalyze =>
      let c := analyze_click (page w) in
      Some {| page := c.2; uploads_in_flight := uploads_in_flight w;
              preprocessings_in_flight := preprocessings_in_flight w;
              analyses_in_flight := S (analyses_in_flight w); sent := post c w |}
  | AnalyzeSettles r =>
      match analyses_in_flight w with
      | 0 => None
      | S n =>
          Some {| page := (analyze_settled r (page w)).2;
                  uploads_in_flight := uploads_in_flight w;
                  preprocessings_in_flight := preprocessings_in_flight w;
                  analyses_in_flight := n; sent := sent w |}
      end
  | ChooseColumn i =>
      sel ← choose i (columnSelect (page w));
      Some (if decide (sel_value sel = sel_value (columnSelect (page w)))
            then w
            else with_page (column_change (set_columnSelect sel (page w))).2 w)
  | ChoosePlotType i =>
      sel ← choose i (plotTypeSelect (page w));
      Some (with_page (set_plotTypeSelect sel (page w)) w)
  | ChooseMissing k i =>
      g ← missing_values_options (page w) !! k;
      sel ← choose i (og_select g);
      Some (with_page
              (set_missing_values_options
                 (<[k := {| og_label := og_label g; og_select := sel |}]>
                    (missing_values_options (page w)))
                 (page w)) w)
  | ToggleOutlier k =>
      b ← outlier_options (page w) !! k;
      Some (with_page
              (set_outlier_options (<[k := toggle b]> (outlier_options (page w)))
                 (page w)) w)
  | ToggleNormalize k =>
      b ← normalize_options (page w) !! k;
      Some (with_page
              (set_normalize_options (<[k := toggle b]> (normalize_options (page w)))
                 (page w)) w)
  end.

Fixpoint run (evs : list event) (w : world) : option world :=
  match evs with
  | [] => Some w
  | e :: evs' => w' ← step e w; run evs' w'
  end.

(** *** Reading the page *)

Definition option_values (sel : Select) : list string := (sel_options sel).*1.

Definition download_hidden (s : ui) : Prop :=
  display s !! "download-container" = Some "none".

Definition download_shown (s : ui) : Prop :=
  display s !! "download-container" = Some "block".

(** *** Replies, as the handlers tell them apart *)

(** The body of an upload reply that passes the checks of lines 31-33. *)
Definition upload_accepted (r : fetched UploadData) : option UploadData :=
  match r with
  | NetworkError _ => None
  | Resolved response =>
      if ok response then
        match body response with
        | BadJson _ => None
        | Json data => match truthy (u_error data) with
                       | Some _ => None
                       | None => Some data
                       end
        end
      else None
  end.

(** The body of a preprocess reply that passes the check of line 70. *)
Definition preprocess_accepted (r : fetched PreprocessData) : option PreprocessData :=
  match r with
  | NetworkError _ => None
  | Resolved response =>
      match body response with
      | BadJson _ => None
      | Json data => match truthy (p_error data) with
                     | Some _ => None
                     | None => Some data
                     end
      end
  end.

(** The body of an analysis reply that passes the check of line 112. *)
Definition analyze_accepted (r : fetched AnalyzeData) : option AnalyzeData :=
  match r with
  | NetworkError _ => None
  | Resolved response =>
      match body response with
      | BadJson _ => None
      | Json data => if ok response then Some data else None
      end
  end.

(** The message of the error thrown for a reply that does not pass. *)
Definition upload_failure (r : fetched UploadData) : string :=
  match r with
  | NetworkError e => e
  | Resolved response =>
      if ok response then
        match body response with
        | BadJson e => e
        | Json data => default "" (truthy (u_error data))
        end
      else "Server error: " +:+ statusText response
  end.

Definition preprocess_failure_message (r : fetched PreprocessData) : string :=
  match r with
  | NetworkError e => e
  | Resolved response =>
      match body response with
      | BadJson e => e
      | Json data => default "" (truthy (p_error data))
      end
  end.

Definition analyze_failure (r : fetched AnalyzeData) : string :=
  match r with
  | NetworkError e => e
  | Resolved response =>
      match body response with
      | BadJson e => e
      | Json data =>
          default ("Server responded with status: " +:+ pretty (status response))
                  (truthy (a_error data))
      end
  end.

(** An accepted upload reply is complete when it carries the column
    structure and the insights that [displayInitialData] reads. *)
Definition complete_upload (r : fetched UploadData) : bool :=
  match upload_accepted r with
  | Some data => bool_decide (is_Some (u_columns data) ∧ is_Some (u_insights data))
  | None => true
  end.

Definition complete (e : event) : bool :=
  match e with
  | UploadSettles r => complete_upload r
  | _ => true
  end.

(** The plot type select shows the options of the selected column under the
    current [columns], and one of them (or nothing at all) is chosen. *)
Definition plot_in_sync (s : ui) : Prop :=
  sel_options (plotTypeSelect s) =
    match columns s with
    | None => []
    | Some cols => if includes (c_numeric cols) (sel_value (columnSelect s))
                   then numeric_plot_options else categorical_plot_options
    end
  ∧ (sel_value (plotTypeSelect s) = ""
     ∨ sel_value (plotTypeSelect s) ∈ option_values (plotTypeSelect s)).

(** *** What a run of events determines *)

(** The name carried by the latest accepted upload reply, if any. *)
Definition note_upload (acc : option string) (e : event) : option string :=
  match e with
  | UploadSettles r =>
      match upload_accepted r with
      | Some data => Some (u_filename data)
      | None => acc
      end
  | _ => acc
  end.

Definition uploaded_filename (evs : list event) : option string :=
  foldl note_upload None evs.

(** The name carried by the latest accepted upload or preprocess reply. *)
Definition note_snapshot (acc : option string) (e : event) : option string :=
  match e with
  | UploadSettles r =>
      match upload_accepted r with
      | Some data => Some (u_filename data)
      | None => acc
      end
  | PreprocessSettles r =>
      match preprocess_accepted r with
      | Some data => Some (p_cleaned_filename data)
      | None => acc
      end
  | _ => acc
  end.

Definition latest_snapshot (evs : list event) : option string :=
  foldl note_snapshot None evs.

(** Preprocessing round trips do not overlap: at every point of the run
    from [w] at most one is in flight. *)
Fixpoint one_at_a_time (evs : list event) (w : world) : bool :=
  bool_decide (preprocessings_in_flight w ≤ 1)%nat
  && match evs with
     | [] => true
     | e :: evs' =>
         match step e w with
         | Some w' => one_at_a_time evs' w'
         | None => true
         end
     end.

(** A missing-value select as the script builds it, with one of its options
    chosen. *)
Definition select_ok (g : OptionGroup) : Prop :=
  (∃ isNumeric, sel_options (og_select g) = missing_value_options isNumeric)
  ∧ sel_value (og_select g) ∈ option_values (og_select g).

Definition controls_ok (s : ui) : Prop :=
  Forall select_ok (missing_values_options s).

(** The success path of the preprocess handler runs to its end: the reply
    is accepted and carries the log that line 73 maps over. *)
Definition preprocess_succeeds (r : fetched PreprocessData) : bool :=
  match preprocess_accepted r with
  | Some data => bool_decide (is_Some (p_log data))
  | None => false
  end.

(** The controls on the page are those of the current [columns]: a select
    of a column outside [numeric] has the three options without mean and
    median, and every checkbox belongs to a column of [numeric]; there are
    no controls before a column structure is there. *)
Definition controls_in_sync (s : ui) : Prop :=
  match columns s with
  | None =>
      missing_values_options s = [] ∧ outlier_options s = []
      ∧ normalize_options s = []
  | Some cols =>
      Forall (λ g, sel_column (og_select g) ∉ c_numeric cols →
                   sel_options (og_select g) = missing_value_options false)
             (missing_values_options s)
      ∧ Forall (λ b, cb_column b ∈ c_numeric cols) (outlier_options s)
      ∧ Forall (λ b, cb_column b ∈ c_numeric cols) (normalize_options s)
  end.

(** Every control on the page carries the name of a column of the current
    [columns]. *)
Definition controls_named (s : ui) : Prop :=
  match columns s with
  | None =>
      missing_values_options s = [] ∧ outlier_options s = []
      ∧ normalize_options s = []
  | Some cols =>
      Forall (λ g, sel_column (og_select g) ∈ c_all cols) (missing_values_options s)
      ∧ Forall (λ b, cb_column b ∈ c_all cols) (outlier_options s)
      ∧ Forall (λ b, cb_column b ∈ c_all cols) (normalize_options s)
  end.

(** The column select has options only once a column structure is there. *)
Definition columns_before_choices (s : ui) : Prop :=
  columns s = None → sel_options (columnSelect s) = [].

(** *** Reading the controls: which side a column is on *)

(** The columns that got the numeric-only controls. *)
Definition numeric_side (s : ui) : list string :=
  cb_column <$> outlier_options s.


(** ** The column classifier *)

(** Modelled from the spec: the dataset the classifier inspects, on the
    server side of [/upload], which is not among the sources.  A dataset is
    an ordered sequence of named columns, each an ordered sequence of cells;
    a column is identified by its name, as in the rows [{age: 25}] of the
    scenarios, and a missing cell is [None]. *)
Record Dataset := {
  ds_names : list string;
  ds_columns : gmap string (list (option string))
}.

(** Modelled from the spec: the cells of the column of a given name, for
    the same missing classifier; a name without a column has no cells. *)
Definition column_cells (ds : Dataset) (name : string) : list (option string) :=
  default [] (ds_columns ds !! name).

Section classifier.

(** The recogniser of numeric literals is not fixed by the specification
    beyond examples; it is a parameter. *)
Variable parses_as_number : string → bool.

(** Modelled from the spec: the test of section 4.1, which is not among the
    sources.  A column is numeric iff at least one cell is non-missing and
    every non-missing cell parses as a number. *)
Definition is_numeric_column (cells : list (option string)) : bool :=
  existsb (λ c, bool_decide (is_Some c)) cells
  && forallb (λ c, match c with
                   | Some v => parses_as_number v
                   | None => true
                   end) cells.

(** Modelled from the spec: [classify] of section 4.1, which is not among
    the sources.  It yields the full ordered list of column names, the names
    of the numeric columns, and the names of all the others as
    categorical. *)
Definition classify (ds : Dataset) : Columns :=
  {| c_all := ds_names ds;
     c_numeric :=
       filter (λ name, is_numeric_column (column_cells ds name) = true) (ds_names ds);
     c_categorical :=
       filter (λ name, is_numeric_column (column_cells ds name) = false) (ds_names ds) |}.

End classifier.

(** An accepted upload reply has plain names when no name of [all] holds a
    markup character: the controls then carry the names as they are. *)
Definition plain_upload (r : fetched UploadData) : bool :=
  match upload_accepted r with
  | Some data =>
      match u_columns data with
      | Some cols => forallb plain (c_all cols)
      | None => true
      end
  | None => true
  end.

Definition plain_names (e : event) : bool :=
  match e with
  | UploadSettles r => plain_upload r
  | _ => true
  end.

(** *** Sample data *)

Definition upload_reply : fetched UploadData :=
  Resolved (Build_Response true 200 "OK"
    (Json {| u_error := None; u_filename := "people.csv";
             u_columns := Some
               {| c_all := ["age"; "city"]; c_numeric := ["age"];
                  c_categorical := ["city"] |};
             u_preview := "<table></table>";
             u_insights := Some {| description := "<table></table>";
                                   info := "2 columns" |} |})).

Definition preprocess_reply : fetched PreprocessData :=
  Resolved (Build_Response true 200 "OK"
    (Json {| p_error := None; p_cleaned_filename := "cleaned_people.csv";
             p_log := Some ["Filled 1 cell of age"];
             p_preview := "<table></table>" |})).

Definition analyze_reply : fetched AnalyzeData :=
  Resolved (Build_Response true 200 "OK"
    (Json {| a_error := None; a_image := "iVBORw0KGgo=";
             a_stats := Some [("Mean", "30.00"); ("Median", "30.00")] |})).

Definition analyze_reply_without_stats : fetched AnalyzeData :=
  Resolved (Build_Response true 200 "OK"
    (Json {| a_error := None; a_image := "iVBORw0KGgo="; a_stats := None |})).

Definition analyze_mismatch_reply : fetched AnalyzeData :=
  Resolved (Build_Response false 400 "Bad Request"
    (Json {| a_error := Some "Cannot draw a histogram of a text column";
             a_image := ""; a_stats := None |})).

Definition preprocess_error_reply : fetched PreprocessData :=
  Resolved (Build_Response false 400 "Bad Request"
    (Json {| p_error := Some "File not found"; p_cleaned_filename := "";
             p_log := None; p_preview := "" |})).

Definition the_columns : Columns :=
  {| c_all := ["age"; "city"]; c_numeric := ["age"]; c_categorical := ["city"] |}.

(** A recogniser of unsigned decimal integers, for the examples. *)
Fixpoint digits_only (v : string) : bool :=
  match v with
  | EmptyString => true
  | String c v' =>
      (48 <=? Ascii.nat_of_ascii c)%nat && (Ascii.nat_of_ascii c <=? 57)%nat
      && digits_only v'
  end.

Definition all_digits (v : string) : bool :=
  bool_decide (v ≠ "") && digits_only v.

Definition people : Dataset :=
  {| ds_names := ["age"; "city"; "notes"];
     ds_columns :=
       {[ "age" := [Some "25"; None; Some "35"];
          "city" := [Some "Pune"; Some "Oslo"; None];
          "notes" := [None; None; None] ]} |}.


Definition colliding_columns : Columns :=
  {| c_all := ["a&amp;b"; "a&b"]; c_numeric := ["a&amp;b"];
     c_categorical := ["a&b"] |}.

(** ** The handlers from end to end *)

(** Lines 20-47 when nothing else runs between the [fetch] and its
    settling. *)
Definition upload_handler (r : fetched UploadData) : M unit :=
  upload_submit ;; upload_settled r.

(** *** What a run of events determines, continued *)

(** The name carried by the latest preprocess reply whose success path ran
    to its end. *)
Definition note_cleaned (acc : option string) (e : event) : option string :=
  match e with
  | PreprocessSettles r =>
      match preprocess_accepted r with
      | Some data => if bool_decide (is_Some (p_log data))
                     then Some (p_cleaned_filename data) else acc
      | None => acc
      end
  | _ => acc
  end.

Definition last_cleaned (evs : list event) : option string :=
  foldl note_cleaned None evs.

(** The [href] that goes with it. *)
Definition download_href (cleaned : option string) : string :=
  match cleaned with
  | Some name => "/download/" +:+ name
  | None => ""
  end.

(** No loader is left showing when nothing of its kind is in flight. *)
Definition loaders_idle (w : world) : Prop :=
  (uploads_in_flight w = 0 → display (page w) !! "loader" ≠ Some "block")
  ∧ (preprocessings_in_flight w = 0 →
     display (page w) !! "preprocess-loader" ≠ Some "block")
  ∧ (analyses_in_flight w = 0 →
     display (page w) !! "analysis-loader" ≠ Some "block").

(** A visible main content comes with file names for the requests. *)
Definition visible_page_has_names (s : ui) : Prop :=
  display s !! "main-content" = Some "block" →
  is_Some (currentFilename s) ∧ is_Some (currentCleanedFilename s).

(** A column whose name holds the reference [&amp;], as a CSV header may. *)
Definition reference_columns : Columns :=
  {| c_all := ["a&amp;b"]; c_numeric := ["a&amp;b"]; c_categorical := [] |}.

Definition reference_reply : fetched UploadData :=
  Resolved (Build_Response true 200 "OK"
    (Json {| u_error := None; u_filename := "ab.csv";
             u_columns := Some reference_columns;
             u_preview := "<table></table>";
             u_insights := Some {| description := "<table></table>";
                                   info := "1 column" |} |})).

(** The reply to the upload of [colliding]. *)
Definition colliding_reply : fetched UploadData :=
  Resolved (Build_Response true 200 "OK"
    (Json {| u_error := None; u_filename := "colliding.csv";
             u_columns := Some colliding_columns;
             u_preview := "<table></table>";
             u_insights := Some {| description := "<table></table>";
                                   info := "2 columns" |} |})).

(** A column named like the prototype accessor. *)
Definition proto_columns : Columns :=
  {| c_all := ["__proto__"; "city"]; c_numeric := [];
     c_categorical := ["__proto__"; "city"] |}.

Definition proto_reply : fetched UploadData :=
  Resolved (Build_Response true 200 "OK"
    (Json {| u_error := None; u_filename := "proto.csv";
             u_columns := Some proto_columns;
             u_preview := "<table></table>";
             u_insights := Some {| description := "<table></table>";
                                   info := "2 columns" |} |})).

(** * Properties *)

(** ** Evaluating statements *)

Lemma bind_normal {A B} (m : M A) (k : A → M B) s a s' :
  m s = (Normal a, s') → (m ≫= k) s = k a s'.
Proof. intros H. unfold mbind, M_bind. by rewrite H. Qed.

Ltac js :=
  repeat progress
    (unfold mbind, M_bind, mret, M_ret, assign, get, throw, deref, showLoader;
     cbn [fst snd]).

Ltac proj :=
  cbn [fst snd negb ok body status statusText
       currentFilename currentCleanedFilename columns display inner
       downloadLink_href preprocess_log plot_result stats_result
       missing_values_options outlier_options normalize_options
       columnSelect plotTypeSelect
       set_currentFilename set_currentCleanedFilename set_columns set_display
       set_inner set_downloadLink_href set_preprocess_log set_plot_result
       set_stats_result set_missing_values_options set_outlier_options
       set_normalize_options set_columnSelect set_plotTypeSelect
       page uploads_in_flight preprocessings_in_flight analyses_in_flight sent
       with_page post].

Ltac fields :=
  unfold set_normalize_options, set_outlier_options, set_missing_values_options;
  cbn [missing_values_options outlier_options normalize_options currentFilename
       currentCleanedFilename columns display inner downloadLink_href
       preprocess_log plot_result stats_result columnSelect plotTypeSelect].

Ltac look :=
  repeat (rewrite lookup_insert_ne by done); try rewrite lookup_insert_eq.

(** ** The helper functions *)

Lemma includes_true l x : includes l x = true ↔ x ∈ l.
Proof. unfold includes. by rewrite bool_decide_eq_true. Qed.

Lemma includes_false l x : includes l x = false ↔ x ∉ l.
Proof. unfold includes. by rewrite bool_decide_eq_false. Qed.

Lemma updatePlotOptions_eval s cols col :
  columns s = Some cols →
  updatePlotOptions col s =
    (Normal tt,
     set_plotTypeSelect
       (with_options (if includes (c_numeric cols) col
                      then numeric_plot_options else categorical_plot_options)
                     (plotTypeSelect s)) s).
Proof. intros H. unfold updatePlotOptions. js. by rewrite H. Qed.

Lemma updatePlotOptions_state col s :
  (updatePlotOptions col s).2 =
  match columns s with
  | None => s
  | Some cols =>
      set_plotTypeSelect
        (with_options (if includes (c_numeric cols) col
                       then numeric_plot_options else categorical_plot_options)
                      (plotTypeSelect s)) s
  end.
Proof.
  destruct (columns s) as [cols|] eqn:H.
  - by rewrite updatePlotOptions_eval with (cols := cols).
  - unfold updatePlotOptions. js. by rewrite H.
Qed.

Lemma option_values_with_options opts sel :
  option_values (with_options opts sel) = opts.*1.
Proof. reflexivity. Qed.

Lemma populate_column_eval cols col s :
  populate_column cols col s =
  (Normal tt,
   let s1 := set_missing_values_options
               (missing_values_options s
                ++ [missing_value_group (includes (c_numeric cols) col) col]) s in
   if includes (c_numeric cols) col
   then set_normalize_options (normalize_options s ++ [normalize_group col])
          (set_outlier_options (outlier_options s ++ [outlier_group col]) s1)
   else s1).
Proof. unfold populate_column. js. by destruct (includes _ _). Qed.

Lemma forEach_populate cols l s :
  forEach l (populate_column cols) s =
  (Normal tt,
   set_normalize_options
     (normalize_options s
      ++ (normalize_group <$> filter (λ col, includes (c_numeric cols) col = true) l))
     (set_outlier_options
        (outlier_options s
         ++ (outlier_group <$> filter (λ col, includes (c_numeric cols) col = true) l))
        (set_missing_values_options
           (missing_values_options s
            ++ ((λ col, missing_value_group (includes (c_numeric cols) col) col) <$> l))
           s))).
Proof.
  revert s. induction l as [|col l IH]; intros s.
  - destruct s. cbn. js. fields. by rewrite !app_nil_r.
  - cbn [forEach].
    rewrite (bind_normal _ _ _ _ _ (populate_column_eval cols col s)), IH.
    destruct (includes (c_numeric cols) col) eqn:E.
    + rewrite !filter_cons_True, !fmap_cons by done. rewrite E.
      destruct s. fields. by rewrite <- !app_assoc.
    + rewrite !filter_cons_False, !fmap_cons by (rewrite E; done). rewrite E.
      destruct s. fields. by rewrite <- !app_assoc.
Qed.

Lemma populatePreprocessingTools_eval cols s :
  populatePreprocessingTools (Some cols) s =
  (Normal tt,
   set_normalize_options
     (normalize_group <$> filter (λ col, includes (c_numeric cols) col = true) (c_all cols))
     (set_outlier_options
        (outlier_group <$> filter (λ col, includes (c_numeric cols) col = true) (c_all cols))
        (set_missing_values_options
           ((λ col, missing_value_group (includes (c_numeric cols) col) col) <$> c_all cols)
           s))).
Proof.
  unfold populatePreprocessingTools. js.
  rewrite forEach_populate. by destruct s.
Qed.

Lemma populated_missing cols s :
  missing_values_options (populatePreprocessingTools (Some cols) s).2 =
  (λ col, missing_value_group (includes (c_numeric cols) col) col) <$> c_all cols.
Proof. by rewrite populatePreprocessingTools_eval. Qed.

Lemma populated_outlier cols s :
  outlier_options (populatePreprocessingTools (Some cols) s).2 =
  outlier_group <$> filter (λ col, includes (c_numeric cols) col = true) (c_all cols).
Proof. by rewrite populatePreprocessingTools_eval. Qed.

Lemma populated_normalize cols s :
  normalize_options (populatePreprocessingTools (Some cols) s).2 =
  normalize_group <$> filter (λ col, includes (c_numeric cols) col = true) (c_all cols).
Proof. by rewrite populatePreprocessingTools_eval. Qed.

Lemma parsed_name_plain name : plain name = true → parsed_name name = name.
Proof.
  induction name as [|c name IH]; [done|].
  cbn [plain]. intros [Hc Hname]%andb_true_iff.
  assert (Hne : c ≠ "&"%char) by (intros ->; discriminate Hc).
  cbn [parsed_name].
  destruct c as [[] [] [] [] [] [] [] []]; try (by rewrite IH); by destruct Hne.
Qed.

Lemma parsed_names_plain (names : list string) :
  forallb plain names = true → parsed_name <$> names = names.
Proof.
  induction names as [|name names IH]; [done|].
  cbn [forallb]. intros [Hname Hnames]%andb_true_iff.
  by rewrite fmap_cons, parsed_name_plain, IH.
Qed.

Lemma filter_plain (P : string → Prop) `{!∀ x, Decision (P x)} (names : list string) :
  forallb plain names = true → forallb plain (filter P names) = true.
Proof.
  induction names as [|name names IH]; [done|].
  cbn [forallb]. intros [Hname Hnames]%andb_true_iff.
  destruct (decide (P name)).
  - rewrite filter_cons_True by done. cbn [forallb]. by rewrite Hname, IH.
  - rewrite filter_cons_False by done. by apply IH.
Qed.

Lemma parsed_options_plain (names : list string) :
  forallb plain names = true →
  map (λ col, (parsed_name col, parsed_name col)) names
  = map (λ col, (col, col)) names.
Proof.
  induction names as [|name names IH]; [done|]. cbn [forallb map].
  intros [Hname Hnames]%andb_true_iff.
  by rewrite IH, (parsed_name_plain name) by done.
Qed.

Lemma populated_numeric_side cols s :
  numeric_side (populatePreprocessingTools (Some cols) s).2 =
  parsed_name <$> filter (λ col, col ∈ c_numeric cols) (c_all cols).
Proof.
  unfold numeric_side. rewrite populated_outlier, <- list_fmap_compose.
  induction (c_all cols) as [|col l IH]; [done|].
  destruct (decide (col ∈ c_numeric cols)) as [Hin|Hout].
  - rewrite (filter_cons_True (λ c, includes _ c = true))
      by (by apply includes_true).
    rewrite (filter_cons_True (λ c, c ∈ c_numeric cols)) by done.
    rewrite !fmap_cons. by f_equal.
  - rewrite (filter_cons_False (λ c, includes _ c = true))
      by (by rewrite includes_true).
    by rewrite (filter_cons_False (λ c, c ∈ c_numeric cols)).
Qed.


Lemma displayInitialData_eval data s :
  displayInitialData data s =
  let s2 := set_inner "data-preview" (u_preview data)
              (set_inner "filename-display" (u_filename data) s) in
  match u_insights data with
  | None => (Thrown (type_error "description"), s2)
  | Some insights =>
      let s4 := set_inner "data-info" (info insights)
                  (set_inner "data-description" (description insights) s2) in
      match columns s with
      | None =>
          (Thrown (type_error "all"),
           set_normalize_options []
             (set_outlier_options [] (set_missing_values_options [] s4)))
      | Some cols =>
          let s5 := (populatePreprocessingTools (Some cols) s4).2 in
          let s6 := set_columnSelect
                      (with_options
                         (map (λ col, (parsed_name col, parsed_name col))
                              (c_all cols))
                         (columnSelect s5)) s5 in
          (Normal tt, (updatePlotOptions (sel_value (columnSelect s6)) s6).2)
      end
  end.
Proof.
  unfold displayInitialData. js.
  destruct (u_insights data) as [insights|]; [|done]. js. proj.
  destruct (columns s) as [cols|] eqn:Hcols.
  - rewrite populatePreprocessingTools_eval. proj.
    by rewrite updatePlotOptions_eval with (cols := cols).
  - unfold populatePreprocessingTools. js. done.
Qed.

(** ** The handlers *)

Lemma upload_submit_eval s :
  upload_submit s =
  (Normal PostUpload,
   set_display "download-container" "none"
     (set_inner "upload-error" ""
        (set_display "main-content" "none" (set_display "loader" "block" s)))).
Proof. reflexivity. Qed.

Lemma preprocess_click_eval s :
  preprocess_click s =
  (Normal (PostPreprocess (currentFilename s) (collect_actions s)),
   set_display "download-container" "none"
     (set_preprocess_log [] (set_display "preprocess-loader" "block" s))).
Proof. reflexivity. Qed.

Lemma analyze_click_eval s :
  analyze_click s =
  (Normal (PostAnalyze (currentCleanedFilename s)
             (sel_value (columnSelect s)) (sel_value (plotTypeSelect s))),
   set_stats_result []
     (set_plot_result []
        (set_display "analysis-results-container" "none"
           (set_display "analysis-loader" "block" s)))).
Proof. reflexivity. Qed.

Lemma upload_settled_eval r s :
  upload_settled r s =
  (Normal tt,
   set_display "loader" "none"
     match upload_accepted r with
     | Some data =>
         let s3 := set_columns (u_columns data)
                     (set_currentCleanedFilename (Some (u_filename data))
                        (set_currentFilename (Some (u_filename data)) s)) in
         match displayInitialData data s3 with
         | (Normal _, s') => set_display "main-content" "block" s'
         | (Thrown e, s') => set_inner "upload-error" ("Upload failed: " +:+ e) s'
         end
     | None => set_inner "upload-error" ("Upload failed: " +:+ upload_failure r) s
     end).
Proof.
  unfold upload_settled, try_catch_finally, upload_accepted, upload_failure,
    await_fetch, json.
  destruct r as [e|[o st stt [e|data]]]; js; proj; try done;
    destruct o; js; proj; try done.
  destruct (truthy (u_error data)) as [e|]; js; proj; [done|].
  by destruct (displayInitialData data _) as [[[]|e] s'].
Qed.

Lemma preprocess_settled_eval r s :
  preprocess_settled r s =
  (Normal tt,
   set_display "preprocess-loader" "none"
     match preprocess_accepted r with
     | Some data =>
         let s1 := set_currentCleanedFilename (Some (p_cleaned_filename data)) s in
         match p_log data with
         | Some log =>
             set_display "download-container" "block"
               (set_downloadLink_href ("/download/" +:+ p_cleaned_filename data)
                  (set_inner "data-preview" (p_preview data)
                     (set_preprocess_log (log_entry <$> log) s1)))
         | None => set_preprocess_log [preprocess_failure (type_error "map")] s1
         end
     | None =>
         set_preprocess_log [preprocess_failure (preprocess_failure_message r)] s
     end).
Proof.
  unfold preprocess_settled, try_catch_finally, preprocess_accepted,
    preprocess_failure_message, await_fetch, json.
  destruct r as [e|[o st stt [e|data]]]; js; proj; try done.
  destruct (truthy (p_error data)) as [e|]; js; proj; [done|].
  by destruct (p_log data) as [log|].
Qed.

Lemma analyze_settled_eval r s :
  analyze_settled r s =
  (Normal tt,
   set_display "analysis-loader" "none"
     match analyze_accepted r with
     | Some data =>
         match a_stats data with
         | Some kvs =>
             set_display "analysis-results-container" "grid"
               (set_stats_result
                  (stats_heading (sel_value (columnSelect s)) :: (stat_item <$> kvs))
                  (set_plot_result [plot_image (a_image data)] s))
         | None =>
             set_stats_result
               [stat_item ("Error", "Cannot convert undefined or null to object")]
               (set_plot_result [analysis_failed]
                  (set_display "analysis-results-container" "grid"
                     (set_plot_result [plot_image (a_image data)] s)))
         end
     | None =>
         set_stats_result [stat_item ("Error", analyze_failure r)]
           (set_plot_result [analysis_failed]
              (set_display "analysis-results-container" "grid" s))
     end).
Proof.
  unfold analyze_settled, try_catch_finally, analyze_accepted, analyze_failure,
    await_fetch, json, entries.
  destruct r as [e|[o st stt [e|data]]]; js; proj; try done.
  destruct o; js; proj; [|done].
  by destruct (a_stats data) as [kvs|].
Qed.

(** ** Steps and runs *)

(** All the ways an upload round trip can end. *)
Ltac upload_cases r :=
  rewrite upload_settled_eval; proj;
  destruct (upload_accepted r) as [?data|] eqn:?Hacc; proj;
  [ rewrite displayInitialData_eval; proj;
    destruct (u_insights _) as [?insights|] eqn:?Hins; proj;
    [ destruct (u_columns _) as [?cols|] eqn:?Hcols; proj;
      [ rewrite populatePreprocessingTools_eval, updatePlotOptions_state; proj | ]
    | ]
  | ].

Ltac preprocess_cases r :=
  rewrite preprocess_settled_eval; proj;
  destruct (preprocess_accepted r) as [?data|] eqn:?Hacc; proj;
  [ destruct (p_log _) as [?log|] eqn:?Hlog; proj | ].

Ltac analyze_cases r :=
  rewrite analyze_settled_eval; proj;
  destruct (analyze_accepted r) as [?data|] eqn:?Hacc; proj;
  [ destruct (a_stats _) as [?kvs|] eqn:?Hstats; proj | ].

(** Inversion of one step into the page it leaves. *)
Ltac step_inv H :=
  match type of H with
  | step ?e ?w = Some ?w' =>
      destruct e as [|r| |r| |r|i|i|k i|k|k]; cbn [step] in H;
      [ injection H as <-
      | destruct (uploads_in_flight w) eqn:?Hfl; [discriminate H|injection H as <-]
      | injection H as <-
      | destruct (preprocessings_in_flight w) eqn:?Hfl; [discriminate H|injection H as <-]
      | injection H as <-
      | destruct (analyses_in_flight w) eqn:?Hfl; [discriminate H|injection H as <-]
      | destruct (choose i (columnSelect (page w))) as [?sel|] eqn:?Hsel;
          [injection H as <-|discriminate H]
      | destruct (choose i (plotTypeSelect (page w))) as [?sel|] eqn:?Hsel;
          [injection H as <-|discriminate H]
      | destruct (missing_values_options (page w) !! k) as [?g|] eqn:?Hg;
          [cbn [mbind option_bind] in H;
           destruct (choose i (og_select _)) as [?sel|] eqn:?Hsel;
           [injection H as <-|discriminate H]
          |discriminate H]
      | destruct (outlier_options (page w) !! k) as [?b|] eqn:?Hb;
          [injection H as <-|discriminate H]
      | destruct (normalize_options (page w) !! k) as [?b|] eqn:?Hb;
          [injection H as <-|discriminate H] ]
  end.

Lemma run_cons e evs w :
  run (e :: evs) w = step e w ≫= run evs.
Proof. reflexivity. Qed.

Lemma choose_spec i sel sel' :
  choose i sel = Some sel' →
  sel_options sel' = sel_options sel ∧ sel_column sel' = sel_column sel
  ∧ sel_value sel' ∈ option_values sel'.
Proof.
  unfold choose. destruct (sel_options sel !! i) as [o|] eqn:Ho; [|done].
  intros [= <-]. cbn. repeat split.
  apply list_elem_of_fmap. exists o. split; [done|].
  by apply list_elem_of_lookup_2 in Ho.
Qed.

Lemma run_snoc evs e w :
  run (evs ++ [e]) w = run evs w ≫= step e.
Proof.
  revert w. induction evs as [|e' evs IH]; intros w; cbn [app run].
  - cbn [mbind option_bind]. by destruct (step e w).
  - destruct (step e' w) as [w1|]; cbn [mbind option_bind]; [apply IH|done].
Qed.

Lemma step_sent e w w' :
  step e w = Some w' →
  sent w' =
  match e with
  | SubmitUpload => PostUpload :: sent w
  | ClickPreprocess =>
      PostPreprocess (currentFilename (page w)) (collect_actions (page w)) :: sent w
  | ClickAnalyze =>
      PostAnalyze (currentCleanedFilename (page w))
        (sel_value (columnSelect (page w))) (sel_value (plotTypeSelect (page w)))
      :: sent w
  | _ => sent w
  end.
Proof.
  intros H. step_inv H;
    rewrite ?upload_submit_eval, ?preprocess_click_eval, ?analyze_click_eval;
    proj; try done.
  by case_decide.
Qed.

(** A property of the page that every step of a run keeps, when the
    accepted upload replies of the run are complete, holds at its end. *)
Section run_invariant.

Variable P : ui → Prop.

Hypothesis step_keeps :
  ∀ e w w', step e w = Some w' → complete e = true → P (page w) → P (page w').

Lemma run_invariant evs w w' :
  run evs w = Some w' → forallb complete evs = true → P (page w) → P (page w').
Proof.
  revert w. induction evs as [|e evs IH]; intros w Hrun Hcomplete Hinv.
  - by injection Hrun as <-.
  - rewrite run_cons in Hrun. destruct (step e w) as [w1|] eqn:Hstep; [|done].
    cbn [mbind option_bind] in Hrun. cbn [forallb] in Hcomplete.
    apply andb_true_iff in Hcomplete as [He Hevs].
    apply (IH w1); [done..|]. by apply (step_keeps e w).
Qed.

End run_invariant.

(** The same for a property that needs the names of the uploads to be
    plain. *)
Section run_invariant_plain.

Variable P : ui → Prop.

Hypothesis step_keeps :
  ∀ e w w', step e w = Some w' → complete e = true → plain_names e = true →
            P (page w) → P (page w').

Lemma run_invariant_plain evs w w' :
  run evs w = Some w' → forallb complete evs = true →
  forallb plain_names evs = true → P (page w) → P (page w').
Proof.
  revert w. induction evs as [|e evs IH]; intros w Hrun Hcomplete Hplain Hinv.
  - by injection Hrun as <-.
  - rewrite run_cons in Hrun. destruct (step e w) as [w1|] eqn:Hstep; [|done].
    cbn [mbind option_bind] in Hrun. cbn [forallb] in Hcomplete, Hplain.
    apply andb_true_iff in Hcomplete as [He Hevs].
    apply andb_true_iff in Hplain as [Hpe Hpevs].
    apply (IH w1); [done..|]. by apply (step_keeps e w).
Qed.

End run_invariant_plain.

Lemma plain_elem (names : list string) (name : string) :
  forallb plain names = true → name ∈ names → plain name = true.
Proof.
  intros Hplain Hin. rewrite forallb_forall in Hplain.
  by apply Hplain, list_elem_of_In.
Qed.

(** ** The actions object *)

Lemma lookup_assign_property key value (object : gmap string string) k :
  assign_property key value object !! k =
  if decide (key = "__proto__") then object !! k
  else if decide (key = k) then Some value else object !! k.
Proof.
  unfold assign_property. case_decide; [done|].
  case_decide as Hk; [subst k; by rewrite lookup_insert_eq|].
  by rewrite lookup_insert_ne.
Qed.

Lemma collect_missing_values_snoc gs g :
  collect_missing_values (gs ++ [g]) =
  if decide (sel_value (og_select g) ≠ "none")
  then assign_property (sel_column (og_select g)) (sel_value (og_select g))
         (collect_missing_values gs)
  else collect_missing_values gs.
Proof. unfold collect_missing_values. by rewrite foldl_app. Qed.

Lemma collect_missing_values_Some gs col v :
  collect_missing_values gs !! col = Some v →
  col ≠ "__proto__"
  ∧ ∃ g, g ∈ gs ∧ sel_column (og_select g) = col
         ∧ sel_value (og_select g) = v ∧ v ≠ "none".
Proof.
  induction gs as [|g gs IH] using rev_ind; [done|].
  assert (Hold : collect_missing_values gs !! col = Some v →
            col ≠ "__proto__"
            ∧ ∃ g', g' ∈ (gs ++ [g])%list ∧ sel_column (og_select g') = col
                    ∧ sel_value (og_select g') = v ∧ v ≠ "none").
  { intros (Hcol & g' & Hin & Hrest)%IH. split; [done|].
    exists g'. split; [|done]. apply elem_of_app. by left. }
  rewrite collect_missing_values_snoc. case_decide as Hv; [|done].
  rewrite lookup_assign_property. case_decide as Hproto; [done|].
  case_decide as Hcol; [|done].
  intros [= <-]. subst col. split; [done|]. exists g.
  split; [|done]. apply elem_of_app. right. by apply list_elem_of_singleton.
Qed.

Lemma collect_missing_values_proto gs :
  collect_missing_values gs !! "__proto__" = None.
Proof.
  destruct (collect_missing_values gs !! "__proto__") as [v|] eqn:Hv; [|done].
  by apply collect_missing_values_Some in Hv as [Hne _].
Qed.

Lemma collect_missing_values_is_Some gs col :
  col ≠ "__proto__" →
  is_Some (collect_missing_values gs !! col) ↔
  ∃ g, g ∈ gs ∧ sel_column (og_select g) = col ∧ sel_value (og_select g) ≠ "none".
Proof.
  intros Hproto. split.
  - intros [v Hv].
    apply collect_missing_values_Some in Hv as (_ & g & Hg & Hcol & Hval & Hne).
    exists g. by subst v.
  - induction gs as [|g gs IH] using rev_ind.
    + intros (g & Hg & _). by apply elem_of_nil in Hg.
    + intros (g' & Hg' & Hcol & Hval). rewrite collect_missing_values_snoc.
      apply elem_of_app in Hg' as [Hg'|Hg'];
        [|apply list_elem_of_singleton in Hg'; subst g'].
      * case_decide; [|by eauto]. rewrite lookup_assign_property.
        case_decide; [by eauto|]. case_decide; [by eexists|by eauto].
      * rewrite decide_True by done. rewrite lookup_assign_property, Hcol.
        rewrite decide_False by done. rewrite decide_True by done. by eexists.
Qed.

(** The entry of a column that has a single select. *)
Lemma collect_missing_values_single gs k g :
  sel_column (og_select g) ≠ "__proto__" →
  gs !! k = Some g →
  (∀ k' g', gs !! k' = Some g' →
            sel_column (og_select g') = sel_column (og_select g) → k' = k) →
  collect_missing_values gs !! sel_column (og_select g) =
  if decide (sel_value (og_select g) = "none") then None
  else Some (sel_value (og_select g)).
Proof.
  intros Hproto Hk Huniq.
  destruct (collect_missing_values gs !! sel_column (og_select g)) as [v|] eqn:Hv.
  - apply collect_missing_values_Some in Hv as (_ & g' & Hg' & Hcol & <- & Hne).
    apply list_elem_of_lookup in Hg' as [k' Hk'].
    assert (k' = k) as -> by eauto. rewrite Hk in Hk'. injection Hk' as <-.
    by rewrite decide_False.
  - case_decide as Hnone; [done|]. apply eq_None_not_Some in Hv. destruct Hv.
    apply collect_missing_values_is_Some; [done|]. exists g. split; [|done].
    by apply list_elem_of_lookup_2 in Hk.
Qed.

Lemma elem_of_collect_checked boxes col :
  col ∈ collect_checked boxes ↔
  ∃ b, b ∈ boxes ∧ cb_column b = col ∧ cb_checked b = true.
Proof.
  unfold collect_checked. rewrite list_elem_of_fmap. split.
  - intros (b & -> & [? ?]%list_elem_of_filter). by exists b.
  - intros (b & ? & <- & ?). exists b. split; [done|]. by apply list_elem_of_filter.
Qed.

Lemma fresh_group_ok isNumeric col : select_ok (missing_value_group isNumeric col).
Proof.
  split; [by exists isNumeric|]. cbn. destruct isNumeric; cbn; set_solver.
Qed.

Lemma step_controls_ok e w w' :
  step e w = Some w' → controls_ok (page w) → controls_ok (page w').
Proof.
  unfold controls_ok. intros H Hok. step_inv H; proj; try done.
  - upload_cases r; [|apply Forall_nil_2|done|done].
    apply Forall_fmap, Forall_forall. intros col _. apply fresh_group_ok.
  - preprocess_cases r; done.
  - analyze_cases r; done.
  - case_decide; [done|]. proj. unfold column_change. js.
    rewrite updatePlotOptions_state. proj. by destruct (columns _).
  - apply Forall_insert; [done|].
    apply choose_spec in Hsel as (Hopts & _ & Hval).
    rewrite Forall_lookup in Hok. destruct (Hok _ _ Hg) as [[b Hb] _].
    split; [|done]. exists b. cbn. by rewrite Hopts.
Qed.

Lemma reachable_controls_ok evs w w' :
  run evs w = Some w' → controls_ok (page w) → controls_ok (page w').
Proof.
  revert w. induction evs as [|e evs IH]; intros w Hrun Hok.
  - by injection Hrun as <-.
  - rewrite run_cons in Hrun. destruct (step e w) as [w1|] eqn:Hstep; [|done].
    cbn [mbind option_bind] in Hrun.
    apply (IH w1); [done|]. by apply (step_controls_ok e w).
Qed.

(** ** Analysis display *)

Example analysis_succeeds :
  let s' := (analyze_settled analyze_reply initial).2 in
  plot_result s' = [plot_image "iVBORw0KGgo="]
  ∧ stats_result s' =
      [stats_heading ""; stat_item ("Mean", "30.00"); stat_item ("Median", "30.00")].
Proof. split; reflexivity. Qed.

Example analysis_without_stats_fails :
  let s' := (analyze_settled analyze_reply_without_stats initial).2 in
  plot_result s' = [analysis_failed]
  ∧ stats_result s' =
      [stat_item ("Error", "Cannot convert undefined or null to object")].
Proof. split; reflexivity. Qed.

Example analysis_mismatch_fails :
  let s' := (analyze_settled analyze_mismatch_reply initial).2 in
  plot_result s' = [analysis_failed]
  ∧ stats_result s' =
      [stat_item ("Error", "Cannot draw a histogram of a text column")].
Proof. split; reflexivity. Qed.

Lemma append_empty_r (s : string) : s +:+ "" = s.
Proof.
  induction s as [|c s IH]; [done|].
  change (String c (s +:+ "") = String c s). by rewrite IH.
Qed.

Lemma written_singleton (h : html) : written [h] = markup h.
Proof. unfold written, join. cbn. apply append_empty_r. Qed.

Lemma written_cons (h : html) (content : list html) :
  written (h :: content) = markup h +:+ written content.
Proof. done. Qed.

Lemma written_fmap {A} (f : A → html) (l : list A) :
  written (f <$> l) = join ((λ x, markup (f x)) <$> l).
Proof. unfold written. by rewrite <- list_fmap_compose. Qed.

(** C1. Whatever the analysis round trip settles to, and whatever the page
    looked like before, the handler completes and the display is in one of
    two forms.  Either the plot part reads
    [<img src="data:image/png;base64,image" alt="Analysis Plot">] and the
    statistics part reads [<h4>Statistics for column</h4>] followed by one
    [<div class="stat-item"><span>name</span><span>value</span></div>] for
    every returned statistic, in order, and there is no failure marker.  Or
    the plot part reads [<div class="error-message">Analysis Failed</div>]
    and the statistics part is a single item with the name [Error] and the
    message, and nothing else.  A statistics object that is missing from an
    accepted reply makes [Object.entries] throw after the image has been
    written: the [catch] block then replaces the image by the marker.  The
    click itself empties both parts of the display. *)
Theorem analysis_all_or_nothing (s : ui) (r : fetched AnalyzeData) :
  let s' := (analyze_settled r s).2 in
  (plot_result (analyze_click s).2 = [] ∧ stats_result (analyze_click s).2 = []
   ∧ written (plot_result (analyze_click s).2) = ""
   ∧ written (stats_result (analyze_click s).2) = "")
  ∧ (analyze_settled r s).1 = Normal tt
  ∧ display s' !! "analysis-results-container" = Some "grid"
  ∧ ((∃ response data kvs,
        r = Resolved response ∧ ok response = true ∧ body response = Json data
        ∧ a_stats data = Some kvs
        ∧ plot_result s' = [plot_image (a_image data)]
        ∧ stats_result s' =
            stats_heading (sel_value (columnSelect s)) :: (stat_item <$> kvs)
        ∧ (analysis_failed ∉ plot_result s')
        ∧ written (plot_result s') =
            "<img src=" +:+ dq +:+ "data:image/png;base64," +:+ a_image data
              +:+ dq +:+ " alt=" +:+ q "Analysis Plot" +:+ ">"
        ∧ written (stats_result s') =
            join (("<h4>Statistics for " +:+ sel_value (columnSelect s) +:+ "</h4>")
                  :: ((λ kv, "<div class=" +:+ q "stat-item" +:+ "><span>"
                               +:+ kv.1 +:+ "</span><span>" +:+ kv.2
                               +:+ "</span></div>") <$> kvs)))
     ∨ (∃ message,
          plot_result s' = [analysis_failed]
          ∧ stats_result s' = [stat_item ("Error", message)]
          ∧ written (plot_result s') =
              "<div class=" +:+ q "error-message" +:+ ">Analysis Failed</div>"
          ∧ written (stats_result s') =
              "<div class=" +:+ q "stat-item" +:+ "><span>Error</span><span>"
                +:+ message +:+ "</span></div>")).
Proof.
  intros s'. subst s'. rewrite analyze_settled_eval. proj.
  split; [done|]. split; [done|].
  destruct r as [e|[o st stt [e|data]]]; cbn [analyze_accepted body ok]; proj.
  - split; [by rewrite lookup_insert_ne, lookup_insert_eq|]. right.
    eexists. rewrite !written_singleton. done.
  - split; [by rewrite lookup_insert_ne, lookup_insert_eq|]. right.
    eexists. rewrite !written_singleton. done.
  - destruct o; proj.
    + destruct (a_stats data) as [kvs|] eqn:Hstats; proj.
      * split; [by rewrite lookup_insert_ne, lookup_insert_eq|]. left.
        exists (Build_Response true st stt (Json data)), data, kvs.
        split; [done|]. split; [done|]. split; [done|]. split; [done|].
        split; [done|]. split; [done|].
        split; [intros H%list_elem_of_singleton; discriminate H|].
        rewrite written_singleton, written_cons, written_fmap.
        done.
      * split; [by rewrite lookup_insert_ne, lookup_insert_eq|]. right.
        eexists. rewrite !written_singleton. done.
    + split; [by rewrite lookup_insert_ne, lookup_insert_eq|]. right.
      eexists. rewrite !written_singleton. done.
Qed.

(** ** Plot type choices *)

Lemma fresh_plot_options_in_sync (b : bool) sel :
  let sel' := with_options (if b then numeric_plot_options
                            else categorical_plot_options) sel in
  sel_value sel' = "" ∨ sel_value sel' ∈ option_values sel'.
Proof. right. destruct b; cbn; apply list_elem_of_here. Qed.

Lemma step_plot_in_sync e w w' :
  step e w = Some w' → complete e = true →
  plot_in_sync (page w) → plot_in_sync (page w').
Proof.
  unfold plot_in_sync. intros H Hcomplete [Hopts Hval].
  step_inv H; proj; try done.
  - cbn [complete] in Hcomplete. unfold complete_upload in Hcomplete.
    upload_cases r; try done.
    + split; [done|]. apply fresh_plot_options_in_sync.
    + apply bool_decide_eq_true in Hcomplete.
      by destruct Hcomplete as [_ [? [=]]].
  - preprocess_cases r; done.
  - analyze_cases r; done.
  - case_decide; [done|]. proj. unfold column_change. js.
    rewrite updatePlotOptions_state. proj.
    destruct (columns (page w)) as [cols|] eqn:Hcols; proj; rewrite ?Hcols.
    + split; [done|]. apply fresh_plot_options_in_sync.
    + done.
  - apply choose_spec in Hsel as (Ho & _ & Hv). rewrite Ho. split; [done|by right].
Qed.

Lemma run_plot_in_sync evs w w' :
  run evs w = Some w' → forallb complete evs = true →
  plot_in_sync (page w) → plot_in_sync (page w').
Proof. apply run_invariant, step_plot_in_sync. Qed.

(** C2. For every column name and every column structure,
    [updatePlotOptions] completes and leaves exactly the options histogram
    and boxplot when the column is in [numeric], and exactly the option
    count when it is not.  Hence, on any run in which every accepted upload
    reply carries its column structure and insights, an analyze click
    requests a histogram or a boxplot only for a selected column that is in
    [numeric], and a count only for one that is not. *)
Theorem plot_choices_follow_numeric :
  (∀ s cols col,
     columns s = Some cols →
     (updatePlotOptions col s).1 = Normal tt
     ∧ option_values (plotTypeSelect (updatePlotOptions col s).2) =
         if bool_decide (col ∈ c_numeric cols)
         then ["histogram"; "boxplot"] else ["count"])
  ∧ (∀ evs w f col pt,
       run evs boot = Some w → forallb complete evs = true →
       (analyze_click (page w)).1 = Normal (PostAnalyze f col pt) →
       (pt = "histogram" ∨ pt = "boxplot" →
          ∃ cols, columns (page w) = Some cols ∧ col ∈ c_numeric cols)
       ∧ (pt = "count" →
            ∃ cols, columns (page w) = Some cols ∧ col ∉ c_numeric cols)).
Proof.
  split.
  - intros s cols col Hcols. rewrite (updatePlotOptions_eval _ _ _ Hcols). proj.
    split; [done|]. rewrite option_values_with_options. unfold includes.
    by destruct (bool_decide (col ∈ c_numeric cols)).
  - intros evs w f col pt Hrun Hcomplete Hreq.
    rewrite analyze_click_eval in Hreq. proj. injection Hreq as _ <- <-.
    assert (Hsync : plot_in_sync (page w)).
    { apply (run_plot_in_sync _ _ _ Hrun Hcomplete). split; [done|by left]. }
    destruct Hsync as [Hopts Hval]. unfold option_values in Hval.
    rewrite Hopts in Hval.
    destruct (columns (page w)) as [cols|].
    + destruct (includes (c_numeric cols) (sel_value (columnSelect (page w))))
        eqn:Hinc.
      * apply includes_true in Hinc. split; [by eauto|].
        intros Hpt. rewrite Hpt in Hval. destruct Hval as [[=]|Hval].
        cbn in Hval. repeat (apply elem_of_cons in Hval as [[=]|Hval]).
        by apply elem_of_nil in Hval.
      * apply includes_false in Hinc. split; [|by eauto].
        intros Hpt. destruct Hval as [Hval|Hval].
        -- rewrite Hval in Hpt. by destruct Hpt.
        -- cbn in Hval. apply list_elem_of_singleton in Hval.
           rewrite Hval in Hpt. by destruct Hpt.
    + destruct Hval as [Hval|Hval]; [|by apply elem_of_nil in Hval].
      rewrite Hval. split; [intros [[=]|[=]]|intros [=]].
Qed.

Lemma plot_choices_follow_numeric_witness :
  (columns (set_columns (Some the_columns) initial) = Some the_columns
   ∧ option_values
       (plotTypeSelect
          (updatePlotOptions "age" (set_columns (Some the_columns) initial)).2) =
       ["histogram"; "boxplot"]
   ∧ option_values
       (plotTypeSelect
          (updatePlotOptions "city" (set_columns (Some the_columns) initial)).2) =
       ["count"])
  ∧ ∃ w,
      run [SubmitUpload; UploadSettles upload_reply; ChooseColumn 1;
           ClickAnalyze] boot = Some w
      ∧ forallb complete [SubmitUpload; UploadSettles upload_reply;
                          ChooseColumn 1; ClickAnalyze] = true
      ∧ (analyze_click (page w)).1 = Normal (PostAnalyze (Some "people.csv") "city" "count")
      ∧ ∃ cols, columns (page w) = Some cols ∧ "city" ∉ c_numeric cols.
Proof.
  destruct plot_choices_follow_numeric as [Hcall Hrequests].
  split.
  - split; [reflexivity|]. split.
    + exact (proj2 (Hcall (set_columns (Some the_columns) initial)
                      the_columns "age" eq_refl)).
    + exact (proj2 (Hcall (set_columns (Some the_columns) initial)
                      the_columns "city" eq_refl)).
  - destruct (run [SubmitUpload; UploadSettles upload_reply; ChooseColumn 1;
                   ClickAnalyze] boot) as [w|] eqn:Hrun;
      [|exfalso; vm_compute in Hrun; discriminate Hrun].
    assert (Hreq : (analyze_click (page w)).1 =
                   Normal (PostAnalyze (Some "people.csv") "city" "count")).
    { pose proof Hrun as Hw. vm_compute in Hw. injection Hw as <-.
      vm_compute. reflexivity. }
    exists w. split; [reflexivity|]. split; [reflexivity|]. split; [exact Hreq|].
    exact (proj2 (Hrequests _ w _ _ _ Hrun eq_refl Hreq) eq_refl).
Defined.

(** ** Numeric-only actions *)

Lemma step_controls_in_sync e w w' :
  step e w = Some w' → complete e = true → plain_names e = true →
  controls_in_sync (page w) → controls_in_sync (page w').
Proof.
  unfold controls_in_sync. intros H Hcomplete Hplain Hinv.
  step_inv H; proj; try done.
  - cbn [complete plain_names] in Hcomplete, Hplain.
    unfold complete_upload in Hcomplete. unfold plain_upload in Hplain.
    upload_cases r; try done.
    + split; [|split].
      * apply Forall_fmap, Forall_forall. intros col Hin Hcol. cbn in Hcol |- *.
        rewrite parsed_name_plain in Hcol by (by apply (plain_elem (c_all cols))).
        apply includes_false in Hcol. by rewrite Hcol.
      * apply Forall_fmap, Forall_forall.
        intros col [Hcol Hin]%list_elem_of_filter. cbn.
        rewrite parsed_name_plain by (by apply (plain_elem (c_all cols))).
        by apply includes_true.
      * apply Forall_fmap, Forall_forall.
        intros col [Hcol Hin]%list_elem_of_filter. cbn.
        rewrite parsed_name_plain by (by apply (plain_elem (c_all cols))).
        by apply includes_true.
    + apply bool_decide_eq_true in Hcomplete.
      by destruct Hcomplete as [_ [? [=]]].
  - preprocess_cases r; done.
  - analyze_cases r; done.
  - case_decide; [done|]. proj. unfold column_change. js.
    rewrite updatePlotOptions_state. proj.
    destruct (columns (page w)) as [cols|] eqn:Hcols; proj; by rewrite ?Hcols.
  - apply choose_spec in Hsel as (Ho & Hc & _).
    destruct (columns (page w)) as [cols|].
    + destruct Hinv as (Hm & Hrest). split; [|done].
      apply Forall_insert; [done|]. cbn. rewrite Ho, Hc.
      rewrite Forall_lookup in Hm. by apply (Hm k).
    + destruct Hinv as (Hm & _). by rewrite Hm in Hg.
  - destruct (columns (page w)) as [cols|].
    + destruct Hinv as (Hm & Ho & Hn). split; [done|]. split; [|done].
      apply Forall_insert; [done|]. cbn.
      rewrite Forall_lookup in Ho. by apply (Ho k).
    + destruct Hinv as (_ & Ho & _). by rewrite Ho in Hb.
  - destruct (columns (page w)) as [cols|].
    + destruct Hinv as (Hm & Ho & Hn). split; [done|]. split; [done|].
      apply Forall_insert; [done|]. cbn.
      rewrite Forall_lookup in Hn. by apply (Hn k).
    + destruct Hinv as (_ & _ & Hn). by rewrite Hn in Hb.
Qed.

Lemma run_controls_in_sync evs w w' :
  run evs w = Some w' → forallb complete evs = true →
  forallb plain_names evs = true →
  controls_in_sync (page w) → controls_in_sync (page w').
Proof. apply run_invariant_plain, step_controls_in_sync. Qed.

(** C3, as stated, fails for column names with markup.  For the numeric
    column [a&amp;b] and the text column [a&b] the controls built for the
    first carry the name of the second: the column [a&b], which is not in
    [numeric], has a select that offers the mean and an outlier checkbox,
    and a preprocess click can send [mean] and [outliers] for it. *)
Lemma numeric_only_actions_for_a_name_outside_numeric :
  "a&b" ∈ c_all colliding_columns
  ∧ ("a&b" ∉ c_numeric colliding_columns)
  ∧ (∃ g b,
       g ∈ missing_values_options
             (populatePreprocessingTools (Some colliding_columns) initial).2
       ∧ sel_column (og_select g) = "a&b"
       ∧ "mean" ∈ option_values (og_select g)
       ∧ b ∈ outlier_options
               (populatePreprocessingTools (Some colliding_columns) initial).2
       ∧ cb_column b = "a&b")
  ∧ (∃ w,
       run [SubmitUpload; UploadSettles colliding_reply; ChooseMissing 0 1;
            ToggleOutlier 0] boot = Some w
       ∧ columns (page w) = Some colliding_columns
       ∧ missing_values (collect_actions (page w)) !! "a&b" = Some "mean"
       ∧ outliers (collect_actions (page w)) = ["a&b"]).
Proof.
  split; [apply list_elem_of_further, list_elem_of_here|].
  split; [apply includes_false; vm_compute; reflexivity|]. split.
  - exists (missing_value_group true "a&amp;b"), (outlier_group "a&amp;b").
    rewrite populated_missing, populated_outlier.
    split; [vm_compute; apply list_elem_of_here|]. split; [reflexivity|].
    split; [vm_compute; apply list_elem_of_further, list_elem_of_here|].
    split; [vm_compute; apply list_elem_of_here|reflexivity].
  - eexists. split; [vm_compute; reflexivity|].
    split; [reflexivity|]. split; vm_compute; reflexivity.
Qed.

(** C3, amended.  When no name of [all] holds a markup character, then for
    a column that is not in [numeric] the controls that
    [populatePreprocessingTools] builds offer neither the mean nor the median
    fill in any missing-value select of that column, and hold no outlier
    checkbox and no normalization checkbox for it.  Hence, on any run in
    which every accepted upload reply carries its column structure and
    insights and has plain names, the actions of a preprocess click name
    mean or median, or list a column under outliers or normalize, only for a
    column of [numeric]. *)
Theorem numeric_only_actions_withheld :
  (∀ (cols : Columns) (s : ui) (col : string),
     forallb plain (c_all cols) = true →
     col ∉ c_numeric cols →
     let s' := (populatePreprocessingTools (Some cols) s).2 in
     (∀ g, g ∈ missing_values_options s' → sel_column (og_select g) = col →
           ("mean" ∉ option_values (og_select g))
           ∧ ("median" ∉ option_values (og_select g)))
     ∧ (∀ b, b ∈ outlier_options s' → cb_column b ≠ col)
     ∧ (∀ b, b ∈ normalize_options s' → cb_column b ≠ col))
  ∧ (∀ evs w cols,
       run evs boot = Some w → forallb complete evs = true →
       forallb plain_names evs = true →
       columns (page w) = Some cols →
       let a := collect_actions (page w) in
       (∀ col v, missing_values a !! col = Some v →
                 v = "mean" ∨ v = "median" → col ∈ c_numeric cols)
       ∧ (∀ col, col ∈ outliers a → col ∈ c_numeric cols)
       ∧ (∀ col, col ∈ normalize a → col ∈ c_numeric cols)).
Proof.
  split.
  - intros cols s col Hplain Hcol s'. subst s'.
    rewrite populated_missing, populated_outlier, populated_normalize.
    split; [|split].
    + intros g [c [-> Hc]]%list_elem_of_fmap Hg. cbn in Hg.
      rewrite parsed_name_plain in Hg by (by apply (plain_elem (c_all cols))).
      subst c. apply includes_false in Hcol. rewrite Hcol.
      cbn. split; intros H; repeat (apply elem_of_cons in H as [H|H]; [done|]);
        by apply elem_of_nil in H.
    + intros b [c [-> Hc]]%list_elem_of_fmap. cbn.
      apply list_elem_of_filter in Hc as [Hc Hin]. apply includes_true in Hc.
      rewrite parsed_name_plain by (by apply (plain_elem (c_all cols))).
      by intros ->.
    + intros b [c [-> Hc]]%list_elem_of_fmap. cbn.
      apply list_elem_of_filter in Hc as [Hc Hin]. apply includes_true in Hc.
      rewrite parsed_name_plain by (by apply (plain_elem (c_all cols))).
      by intros ->.
  - intros evs w cols Hrun Hcomplete Hplain Hcols a. subst a.
    cbn [collect_actions missing_values outliers normalize].
    assert (Hsync : controls_in_sync (page w)).
    { by apply (run_controls_in_sync _ _ _ Hrun Hcomplete Hplain). }
    assert (Hok : controls_ok (page w)).
    { apply (reachable_controls_ok _ _ _ Hrun). apply Forall_nil_2. }
    unfold controls_in_sync in Hsync. rewrite Hcols in Hsync.
    destruct Hsync as (Hm & Ho & Hn).
    rewrite Forall_forall in Hm. rewrite Forall_forall in Ho.
    rewrite Forall_forall in Hn.
    unfold controls_ok in Hok. rewrite Forall_forall in Hok.
    split; [|split].
    + intros col v (_ & g & Hg & <- & <- & _)%collect_missing_values_Some Hv.
      destruct (decide (sel_column (og_select g) ∈ c_numeric cols)) as [|Hout];
        [done|exfalso].
      destruct (Hok g Hg) as [_ Hval]. unfold option_values in Hval.
      rewrite (Hm g Hg Hout) in Hval. cbn in Hval.
      repeat (apply elem_of_cons in Hval as [Hval|Hval];
              [rewrite Hval in Hv; by destruct Hv|]).
      by apply elem_of_nil in Hval.
    + intros col (b & Hb & <- & _)%elem_of_collect_checked. by apply Ho.
    + intros col (b & Hb & <- & _)%elem_of_collect_checked. by apply Hn.
Qed.

Lemma numeric_only_actions_withheld_witness :
  forallb plain (c_all the_columns) = true
  ∧ ("city" ∉ c_numeric the_columns)
  ∧ (let s' := (populatePreprocessingTools (Some the_columns) initial).2 in
     (∀ g, g ∈ missing_values_options s' → sel_column (og_select g) = "city" →
           ("mean" ∉ option_values (og_select g))
           ∧ ("median" ∉ option_values (og_select g)))
     ∧ (∀ b, b ∈ outlier_options s' → cb_column b ≠ "city")
     ∧ (∀ b, b ∈ normalize_options s' → cb_column b ≠ "city"))
  ∧ ∃ w,
      run [SubmitUpload; UploadSettles upload_reply; ChooseMissing 1 1;
           ToggleNormalize 0] boot = Some w
      ∧ forallb complete [SubmitUpload; UploadSettles upload_reply;
                          ChooseMissing 1 1; ToggleNormalize 0] = true
      ∧ forallb plain_names [SubmitUpload; UploadSettles upload_reply;
                             ChooseMissing 1 1; ToggleNormalize 0] = true
      ∧ columns (page w) = Some the_columns
      ∧ (∀ col, col ∈ normalize (collect_actions (page w)) →
                col ∈ c_numeric the_columns).
Proof.
  destruct numeric_only_actions_withheld as [Hbuilt Hsent].
  assert (Hcity : "city" ∉ c_numeric the_columns)
    by (apply includes_false; vm_compute; reflexivity).
  split; [reflexivity|]. split; [exact Hcity|].
  split; [exact (Hbuilt the_columns initial "city" eq_refl Hcity)|].
  destruct (run [SubmitUpload; UploadSettles upload_reply; ChooseMissing 1 1;
                 ToggleNormalize 0] boot) as [w|] eqn:Hrun;
    [|exfalso; vm_compute in Hrun; discriminate Hrun].
  assert (Hcols : columns (page w) = Some the_columns).
  { pose proof Hrun as Hw. vm_compute in Hw. by injection Hw as <-. }
  exists w. split; [reflexivity|]. split; [reflexivity|]. split; [reflexivity|].
  split; [exact Hcols|].
  exact (proj2 (proj2 (Hsent _ w the_columns Hrun eq_refl eq_refl Hcols))).
Defined.

(** ** Column classification *)


Example classify_people :
  classify all_digits people =
  {| c_all := ["age"; "city"; "notes"]; c_numeric := ["age"];
     c_categorical := ["city"; "notes"] |}.
Proof. vm_compute. reflexivity. Qed.




(** ** Preprocessing display *)

(** C5. The [Preprocessing failed] message is in the log after the round
    trip only if something was thrown ([fetch] rejected, the body was not
    JSON, or the success path dereferenced a log that the reply lacks) or the
    reply carries a non-empty [error] field; the log then reads
    [<div class="error-message">Preprocessing failed: message</div>] and
    nothing else.  A reply without such a field that carries a log takes the
    success path whatever its status: the log reads [<div>item</div>] for
    each returned item, in order, and nothing else, and the preview is the
    returned one. *)
Theorem preprocessing_failed_only_on_total_failure
    (s : ui) (r : fetched PreprocessData) :
  let s' := (preprocess_settled r s).2 in
  (preprocess_settled r s).1 = Normal tt
  ∧ (∀ message, preprocess_failure message ∈ preprocess_log s' →
       ((∃ e, r = NetworkError e)
        ∨ (∃ response e, r = Resolved response ∧ body response = BadJson e)
        ∨ (∃ response data,
             r = Resolved response ∧ body response = Json data
             ∧ (is_Some (truthy (p_error data)) ∨ p_log data = None)))
       ∧ written (preprocess_log s') =
           "<div class=" +:+ q "error-message" +:+ ">Preprocessing failed: "
             +:+ message +:+ "</div>")
  ∧ (∀ response data log,
       r = Resolved response → body response = Json data →
       truthy (p_error data) = None → p_log data = Some log →
       preprocess_log s' = log_entry <$> log
       ∧ written (preprocess_log s') =
           join ((λ item, "<div>" +:+ item +:+ "</div>") <$> log)
       ∧ inner s' !! "data-preview" = Some (p_preview data)
       ∧ ∀ message, preprocess_failure message ∉ preprocess_log s').
Proof.
  intros s'. subst s'. rewrite preprocess_settled_eval. proj.
  split; [done|]. split.
  - intros message.
    destruct r as [e|[o st stt [e|data]]];
      cbn [preprocess_accepted preprocess_failure_message body]; proj.
    + intros <-%list_elem_of_singleton. rewrite written_singleton.
      split; [left; by eexists|done].
    + intros <-%list_elem_of_singleton. rewrite written_singleton.
      split; [right; left; by eexists _, _|done].
    + destruct (truthy (p_error data)) as [e|] eqn:Herr; proj.
      * intros <-%list_elem_of_singleton. rewrite written_singleton.
        split; [|done]. right; right. eexists _, data.
        split; [done|]. split; [done|]. left. rewrite Herr. by eexists.
      * destruct (p_log data) as [log|] eqn:Hlog; proj.
        -- intros [item [Hitem _]]%list_elem_of_fmap. discriminate Hitem.
        -- intros <-%list_elem_of_singleton. rewrite written_singleton.
           split; [|done]. right; right. eexists _, data.
           split; [done|]. split; [done|]. by right.
  - intros response data log -> Hbody Herr Hlog.
    unfold preprocess_accepted. rewrite Hbody, Herr, Hlog. proj.
    split; [done|]. split.
    { by rewrite written_fmap. }
    split; [by rewrite lookup_insert_eq|].
    intros message [item [Hitem _]]%list_elem_of_fmap. discriminate Hitem.
Qed.

Lemma preprocessing_failed_only_on_total_failure_witness :
  let r := Resolved (Build_Response false 500 "Internal Server Error"
             (Json {| p_error := None; p_cleaned_filename := "cleaned_a.csv";
                      p_log := Some ["Filled 1 cell of age"; "Dropped 2 rows"];
                      p_preview := "<table></table>" |})) in
  let r' := Resolved (Build_Response true 200 "OK"
              (Json {| p_error := Some "No such file";
                       p_cleaned_filename := ""; p_log := None;
                       p_preview := "" |})) in
  let s' := (preprocess_settled r initial).2 in
  (preprocess_log s' = log_entry <$> ["Filled 1 cell of age"; "Dropped 2 rows"]
   ∧ written (preprocess_log s')
     = "<div>Filled 1 cell of age</div><div>Dropped 2 rows</div>"
   ∧ inner s' !! "data-preview" = Some "<table></table>"
   ∧ ∀ message, preprocess_failure message ∉ preprocess_log s')
  ∧ written (preprocess_log (preprocess_settled r' initial).2)
    = "<div class=" +:+ q "error-message"
        +:+ ">Preprocessing failed: No such file</div>".
Proof.
  intros r r' s'. split.
  - exact (proj2 (proj2 (preprocessing_failed_only_on_total_failure initial r))
             _ _ _ eq_refl eq_refl eq_refl eq_refl).
  - refine (proj2 (proj1 (proj2 (preprocessing_failed_only_on_total_failure
                                   initial r')) "No such file" _)).
    vm_compute. apply list_elem_of_here.
Defined.

(** ** The actions payload *)

Lemma step_controls_named e w w' :
  step e w = Some w' → complete e = true → plain_names e = true →
  controls_named (page w) → controls_named (page w').
Proof.
  unfold controls_named. intros H Hcomplete Hplain Hinv.
  step_inv H; proj; try done.
  - cbn [complete plain_names] in Hcomplete, Hplain.
    unfold complete_upload in Hcomplete. unfold plain_upload in Hplain.
    upload_cases r; try done.
    + split; [|split].
      * apply Forall_fmap, Forall_forall. intros col Hin. cbn.
        by rewrite parsed_name_plain by (by apply (plain_elem (c_all cols))).
      * apply Forall_fmap, Forall_forall.
        intros col [Hcol Hin]%list_elem_of_filter. cbn.
        by rewrite parsed_name_plain by (by apply (plain_elem (c_all cols))).
      * apply Forall_fmap, Forall_forall.
        intros col [Hcol Hin]%list_elem_of_filter. cbn.
        by rewrite parsed_name_plain by (by apply (plain_elem (c_all cols))).
    + apply bool_decide_eq_true in Hcomplete.
      by destruct Hcomplete as [_ [? [=]]].
  - preprocess_cases r; done.
  - analyze_cases r; done.
  - case_decide; [done|]. proj. unfold column_change. js.
    rewrite updatePlotOptions_state. proj.
    destruct (columns (page w)) as [cols|] eqn:Hcols; proj; by rewrite ?Hcols.
  - apply choose_spec in Hsel as (Ho & Hc & _).
    destruct (columns (page w)) as [cols|].
    + destruct Hinv as (Hm & Hrest). split; [|done].
      apply Forall_insert; [done|]. cbn. rewrite Hc.
      rewrite Forall_lookup in Hm. by apply (Hm k).
    + destruct Hinv as (Hm & _). by rewrite Hm in Hg.
  - destruct (columns (page w)) as [cols|].
    + destruct Hinv as (Hm & Ho & Hn). split; [done|]. split; [|done].
      apply Forall_insert; [done|]. cbn.
      rewrite Forall_lookup in Ho. by apply (Ho k).
    + destruct Hinv as (_ & Ho & _). by rewrite Ho in Hb.
  - destruct (columns (page w)) as [cols|].
    + destruct Hinv as (Hm & Ho & Hn). split; [done|]. split; [done|].
      apply Forall_insert; [done|]. cbn.
      rewrite Forall_lookup in Hn. by apply (Hn k).
    + destruct Hinv as (_ & _ & Hn). by rewrite Hn in Hb.
Qed.

Lemma run_controls_named evs w w' :
  run evs w = Some w' → forallb complete evs = true →
  forallb plain_names evs = true →
  controls_named (page w) → controls_named (page w').
Proof. apply run_invariant_plain, step_controls_named. Qed.

(** C6, as stated, fails for two kinds of column names.  For a column
    named [__proto__] the assignment of line 59 calls the setter of
    [Object.prototype], which ignores a string: the select of the column is
    on [mode], yet [missing_values] gets no entry and the request carries
    an empty mapping.  For the column [a&amp;b] the select carries the name
    [a&b]: with the select on [mode] the mapping has an entry for [a&b] and
    none for the column. *)
Lemma selected_fill_missing_from_actions :
  (∃ w g,
     run [SubmitUpload; UploadSettles proto_reply; ChooseMissing 0 1] boot = Some w
     ∧ columns (page w) = Some proto_columns
     ∧ missing_values_options (page w) !! 0%nat = Some g
     ∧ sel_column (og_select g) = "__proto__"
     ∧ sel_value (og_select g) = "mode"
     ∧ missing_values (collect_actions (page w)) !! "__proto__" = None
     ∧ (preprocess_click (page w)).1 =
         Normal (PostPreprocess (Some "proto.csv")
                   {| missing_values := ∅; outliers := []; normalize := [] |}))
  ∧ (∃ w g,
       run [SubmitUpload; UploadSettles reference_reply; ChooseMissing 0 3] boot
         = Some w
       ∧ columns (page w) = Some reference_columns
       ∧ missing_values_options (page w) = [g]
       ∧ sel_value (og_select g) = "mode"
       ∧ missing_values (collect_actions (page w)) !! "a&amp;b" = None
       ∧ (preprocess_click (page w)).1 =
           Normal (PostPreprocess (Some "ab.csv")
                     {| missing_values := {[ "a&b" := "mode" ]};
                        outliers := []; normalize := [] |})).
Proof.
  split.
  - eexists _, _. split; [vm_compute; reflexivity|].
    split; [reflexivity|]. split; [reflexivity|]. split; [reflexivity|].
    split; [reflexivity|]. split; vm_compute; reflexivity.
  - eexists _, _. split; [vm_compute; reflexivity|].
    split; [reflexivity|]. split; [reflexivity|]. split; [reflexivity|].
    split; vm_compute; reflexivity.
Qed.

(** C6, amended.  In every state the page can reach with column names
    without markup characters, the request of a preprocess click carries an
    [actions] object of this shape: [missing_values] maps names to [mean],
    [median], [mode] or [remove] only; a name other than [__proto__] is a
    key exactly when a select of that column has a value other than [none],
    and the entry of a name with a single select is that select's value;
    [__proto__] is never a key; [outliers] and [normalize] list the columns
    of the checked boxes, one entry for each checked box, in document
    order.  When every accepted upload reply carried its column structure
    and insights, every name in the object is a column of [all]. *)
Theorem actions_payload_shape (evs : list event) (w : world) :
  run evs boot = Some w →
  forallb plain_names evs = true →
  let a := collect_actions (page w) in
  (preprocess_click (page w)).1 =
    Normal (PostPreprocess (currentFilename (page w)) a)
  ∧ (∀ col v, missing_values a !! col = Some v →
              v ∈ ["mean"; "median"; "mode"; "remove"])
  ∧ (∀ col, col ≠ "__proto__" →
            (is_Some (missing_values a !! col) ↔
             ∃ g, g ∈ missing_values_options (page w)
                  ∧ sel_column (og_select g) = col
                  ∧ sel_value (og_select g) ≠ "none"))
  ∧ missing_values a !! "__proto__" = None
  ∧ (∀ k g, missing_values_options (page w) !! k = Some g →
            sel_column (og_select g) ≠ "__proto__" →
            (∀ k' g', missing_values_options (page w) !! k' = Some g' →
                      sel_column (og_select g') = sel_column (og_select g) →
                      k' = k) →
            missing_values a !! sel_column (og_select g) =
              if decide (sel_value (og_select g) = "none") then None
              else Some (sel_value (og_select g)))
  ∧ outliers a =
      cb_column <$> filter (λ b, cb_checked b = true) (outlier_options (page w))
  ∧ normalize a =
      cb_column <$> filter (λ b, cb_checked b = true) (normalize_options (page w))
  ∧ (∀ col, col ∈ outliers a ↔
            ∃ b, b ∈ outlier_options (page w)
                 ∧ cb_column b = col ∧ cb_checked b = true)
  ∧ (∀ col, col ∈ normalize a ↔
            ∃ b, b ∈ normalize_options (page w)
                 ∧ cb_column b = col ∧ cb_checked b = true)
  ∧ (forallb complete evs = true →
     ∀ cols, columns (page w) = Some cols →
       (∀ col, is_Some (missing_values a !! col) → col ∈ c_all cols)
       ∧ (∀ col, col ∈ outliers a → col ∈ c_all cols)
       ∧ (∀ col, col ∈ normalize a → col ∈ c_all cols)).
Proof.
  intros Hrun Hplain a. subst a.
  cbn [collect_actions missing_values outliers normalize].
  split; [done|].
  split; [|split; [|split; [|split; [|split; [|split; [|split; [|split]]]]]]].
  - intros col v (_ & g & Hg & _ & <- & Hne)%collect_missing_values_Some.
    assert (Hok : controls_ok (page w)).
    { apply (reachable_controls_ok _ _ _ Hrun). apply Forall_nil_2. }
    unfold controls_ok in Hok. rewrite Forall_forall in Hok.
    destruct (Hok g Hg) as [[b Hb] Hval]. unfold option_values in Hval.
    rewrite Hb in Hval. destruct b; cbn in Hval;
      repeat (apply elem_of_cons in Hval as [Hval|Hval];
              [first [done | rewrite Hval; set_solver]|]);
      by apply elem_of_nil in Hval.
  - intros col Hcol. by apply collect_missing_values_is_Some.
  - apply collect_missing_values_proto.
  - intros k g Hk Hproto Huniq. by apply (collect_missing_values_single _ k).
  - done.
  - done.
  - apply elem_of_collect_checked.
  - apply elem_of_collect_checked.
  - intros Hcomplete cols Hcols.
    assert (Hnamed : controls_named (page w)).
    { by apply (run_controls_named _ _ _ Hrun Hcomplete Hplain). }
    unfold controls_named in Hnamed. rewrite Hcols in Hnamed.
    destruct Hnamed as (Hm & Ho & Hn).
    rewrite Forall_forall in Hm. rewrite Forall_forall in Ho.
    rewrite Forall_forall in Hn. split; [|split].
    + intros col [v (_ & g & Hg & <- & _)%collect_missing_values_Some].
      by apply Hm.
    + intros col (b & Hb & <- & _)%elem_of_collect_checked. by apply Ho.
    + intros col (b & Hb & <- & _)%elem_of_collect_checked. by apply Hn.
Qed.

Lemma actions_payload_shape_witness :
  forallb plain_names [SubmitUpload; UploadSettles upload_reply; ChooseMissing 0 1;
                       ChooseMissing 1 2; ToggleOutlier 0] = true
  ∧ ∃ w,
      run [SubmitUpload; UploadSettles upload_reply; ChooseMissing 0 1;
           ChooseMissing 1 2; ToggleOutlier 0] boot = Some w
      ∧ collect_actions (page w) =
          {| missing_values := {["age" := "mean"; "city" := "remove"]};
             outliers := ["age"]; normalize := [] |}
      ∧ (∀ col v, missing_values (collect_actions (page w)) !! col = Some v →
                  v ∈ ["mean"; "median"; "mode"; "remove"])
      ∧ (is_Some (missing_values (collect_actions (page w)) !! "city") ↔
         ∃ g, g ∈ missing_values_options (page w)
              ∧ sel_column (og_select g) = "city"
              ∧ sel_value (og_select g) ≠ "none")
      ∧ (∀ col, col ∈ outliers (collect_actions (page w)) ↔
                ∃ b, b ∈ outlier_options (page w)
                     ∧ cb_column b = col ∧ cb_checked b = true)
      ∧ (∀ col, is_Some (missing_values (collect_actions (page w)) !! col) →
                col ∈ c_all the_columns).
Proof.
  split; [reflexivity|].
  destruct (run [SubmitUpload; UploadSettles upload_reply; ChooseMissing 0 1;
                 ChooseMissing 1 2; ToggleOutlier 0] boot) as [w|] eqn:Hrun;
    [|exfalso; vm_compute in Hrun; discriminate Hrun].
  assert (Hcols : columns (page w) = Some the_columns).
  { pose proof Hrun as Hw. vm_compute in Hw. by injection Hw as <-. }
  exists w. split; [reflexivity|].
  destruct (actions_payload_shape _ w Hrun eq_refl)
    as (_ & Hvals & Hkeys & _ & _ & _ & _ & Hout & _ & Hnames).
  split; [|split; [exact Hvals|split; [|split; [exact Hout|]]]].
  - vm_compute in Hrun. injection Hrun as <-. vm_compute. reflexivity.
  - apply Hkeys. discriminate.
  - exact (proj1 (Hnames eq_refl the_columns Hcols)).
Defined.

(** ** Mode and remove *)




(** ** File names *)

Lemma step_currentFilename e w w' :
  step e w = Some w' →
  currentFilename (page w') = note_upload (currentFilename (page w)) e.
Proof.
  intros H. step_inv H; cbn [note_upload]; proj; try done.
  - upload_cases r; done.
  - preprocess_cases r; done.
  - analyze_cases r; done.
  - case_decide; [done|]. proj. unfold column_change. js.
    rewrite updatePlotOptions_state. proj. by destruct (columns _).
Qed.

Lemma step_currentCleanedFilename e w w' :
  step e w = Some w' →
  currentCleanedFilename (page w') = note_snapshot (currentCleanedFilename (page w)) e.
Proof.
  intros H. step_inv H; cbn [note_snapshot]; proj; try done.
  - upload_cases r; done.
  - preprocess_cases r; done.
  - analyze_cases r; done.
  - case_decide; [done|]. proj. unfold column_change. js.
    rewrite updatePlotOptions_state. proj. by destruct (columns _).
Qed.

Lemma run_filenames evs w w' :
  run evs w = Some w' →
  currentFilename (page w') = foldl note_upload (currentFilename (page w)) evs
  ∧ currentCleanedFilename (page w') =
      foldl note_snapshot (currentCleanedFilename (page w)) evs.
Proof.
  revert w. induction evs as [|e evs IH]; intros w H.
  - injection H as <-. done.
  - rewrite run_cons in H. destruct (step e w) as [w1|] eqn:Hstep; [|done].
    cbn [mbind option_bind] in H. apply IH in H as [-> ->]. cbn [foldl].
    by rewrite (step_currentFilename _ _ _ Hstep),
               (step_currentCleanedFilename _ _ _ Hstep).
Qed.

Lemma run_sent evs w :
  run evs boot = Some w →
  ∀ q, q ∈ sent w →
    ∃ evs1 evs2, evs = (evs1 ++ evs2)%list ∧
      match q with
      | PostUpload => True
      | PostPreprocess f _ => f = uploaded_filename evs1
      | PostAnalyze f _ _ => f = latest_snapshot evs1
      end.
Proof.
  revert w. induction evs as [|e evs IH] using rev_ind; intros w Hrun q Hq.
  - injection Hrun as <-. by apply elem_of_nil in Hq.
  - rewrite run_snoc in Hrun. destruct (run evs boot) as [w0|] eqn:Hrun0; [|done].
    cbn [mbind option_bind] in Hrun.
    destruct (run_filenames _ _ _ Hrun0) as [Hf Hc].
    assert (Hold : q ∈ sent w0 →
              ∃ evs1 evs2, (evs ++ [e] = evs1 ++ evs2)%list ∧
                match q with
                | PostUpload => True
                | PostPreprocess f _ => f = uploaded_filename evs1
                | PostAnalyze f _ _ => f = latest_snapshot evs1
                end).
    { intros Hin. destruct (IH w0 eq_refl q Hin) as (evs1 & evs2 & Heq & Hq1).
      exists evs1, (evs2 ++ [e])%list. split; [|done].
      by rewrite Heq, <- app_assoc. }
    rewrite (step_sent _ _ _ Hrun) in Hq.
    destruct e; try (by apply Hold);
      apply elem_of_cons in Hq as [->|Hq]; try (by apply Hold);
      (eexists evs, _; split; [reflexivity|]);
      first [exact I|exact Hf|exact Hc].
Qed.

(** C8. After any run of events, [currentFilename] is the name carried by
    the latest accepted upload reply, however many preprocess replies have
    arrived since, and the request of a preprocess click carries that name;
    [currentCleanedFilename] is the name carried by the latest accepted
    upload or preprocess reply, and the request of an analyze click carries
    that one.  So every preprocess request sent during the run carries the
    name of the upload that was the latest when it was sent, and every
    analyze request the name of the snapshot that was the latest then. *)
Theorem filenames_of_requests (evs : list event) (w : world) :
  run evs boot = Some w →
  currentFilename (page w) = uploaded_filename evs
  ∧ currentCleanedFilename (page w) = latest_snapshot evs
  ∧ (preprocess_click (page w)).1 =
      Normal (PostPreprocess (uploaded_filename evs) (collect_actions (page w)))
  ∧ (analyze_click (page w)).1 =
      Normal (PostAnalyze (latest_snapshot evs)
                (sel_value (columnSelect (page w)))
                (sel_value (plotTypeSelect (page w))))
  ∧ (∀ r w', step (PreprocessSettles r) w = Some w' →
       currentFilename (page w') = uploaded_filename evs
       ∧ ∀ data, preprocess_accepted r = Some data →
           currentCleanedFilename (page w') = Some (p_cleaned_filename data))
  ∧ (∀ f a, PostPreprocess f a ∈ sent w →
       ∃ evs1 evs2, evs = (evs1 ++ evs2)%list ∧ f = uploaded_filename evs1)
  ∧ (∀ f column plot_type, PostAnalyze f column plot_type ∈ sent w →
       ∃ evs1 evs2, evs = (evs1 ++ evs2)%list ∧ f = latest_snapshot evs1).
Proof.
  intros H. destruct (run_filenames _ _ _ H) as [Hf Hc].
  unfold uploaded_filename, latest_snapshot.
  rewrite preprocess_click_eval, analyze_click_eval. proj.
  rewrite Hf, Hc. do 4 (split; [done|]). split; [|split].
  - intros r w' Hstep. split.
    + rewrite (step_currentFilename _ _ _ Hstep). by rewrite Hf.
    + intros data Hdata. rewrite (step_currentCleanedFilename _ _ _ Hstep).
      cbn [note_snapshot]. by rewrite Hdata.
  - intros f a Hq. exact (run_sent _ _ H _ Hq).
  - intros f column plot_type Hq. exact (run_sent _ _ H _ Hq).
Qed.

Lemma filenames_of_requests_witness :
  ∃ w,
    run [SubmitUpload; UploadSettles upload_reply; ClickPreprocess;
         PreprocessSettles preprocess_reply] boot = Some w
    ∧ currentFilename (page w) = Some "people.csv"
    ∧ currentCleanedFilename (page w) = Some "cleaned_people.csv"
    ∧ (preprocess_click (page w)).1 =
        Normal (PostPreprocess (Some "people.csv") (collect_actions (page w)))
    ∧ (analyze_click (page w)).1 =
        Normal (PostAnalyze (Some "cleaned_people.csv")
                  (sel_value (columnSelect (page w)))
                  (sel_value (plotTypeSelect (page w)))).
Proof.
  destruct (run [SubmitUpload; UploadSettles upload_reply; ClickPreprocess;
                 PreprocessSettles preprocess_reply] boot) as [w|] eqn:Hrun.
  - exists w. split; [reflexivity|].
    destruct (filenames_of_requests _ w Hrun) as (H1 & H2 & H3 & H4 & _).
    repeat split; assumption.
  - exfalso. vm_compute in Hrun. discriminate Hrun.
Defined.

(** ** The download container *)

Lemma step_download e w w' :
  step e w = Some w' →
  display (page w') !! "download-container" =
  match e with
  | SubmitUpload | ClickPreprocess => Some "none"
  | PreprocessSettles r =>
      if preprocess_succeeds r then Some "block"
      else display (page w) !! "download-container"
  | _ => display (page w) !! "download-container"
  end.
Proof.
  intros H. step_inv H; proj; look; try done.
  - upload_cases r; look; done.
  - unfold preprocess_succeeds. preprocess_cases r; look; done.
  - analyze_cases r; look; done.
  - case_decide; [done|]. proj. unfold column_change. js.
    rewrite updatePlotOptions_state. proj. by destruct (columns _).
Qed.

Lemma step_in_flight e w w' :
  step e w = Some w' →
  preprocessings_in_flight w' =
  match e with
  | ClickPreprocess => S (preprocessings_in_flight w)
  | PreprocessSettles _ => pred (preprocessings_in_flight w)
  | _ => preprocessings_in_flight w
  end.
Proof.
  intros H. step_inv H; proj; try done.
  by case_decide.
Qed.

Lemma one_at_a_time_cons e evs w w1 :
  step e w = Some w1 → one_at_a_time (e :: evs) w = true →
  (preprocessings_in_flight w ≤ 1)%nat
  ∧ (preprocessings_in_flight w1 ≤ 1)%nat
  ∧ one_at_a_time evs w1 = true.
Proof.
  intros Hstep Hone. cbn [one_at_a_time] in Hone. rewrite Hstep in Hone.
  apply andb_true_iff in Hone as [Hw Hone]. apply bool_decide_eq_true in Hw.
  split; [done|]. split; [|done].
  destruct evs; cbn [one_at_a_time] in Hone;
    apply andb_true_iff in Hone as [Hw1 _]; by apply bool_decide_eq_true in Hw1.
Qed.

Lemma run_hidden_in_flight evs w w' :
  run evs w = Some w' → one_at_a_time evs w = true →
  ((0 < preprocessings_in_flight w)%nat → download_hidden (page w)) →
  (0 < preprocessings_in_flight w')%nat → download_hidden (page w').
Proof.
  revert w. induction evs as [|e evs IH]; intros w Hrun Hone Hw.
  - by injection Hrun as <-.
  - rewrite run_cons in Hrun. destruct (step e w) as [w1|] eqn:Hstep; [|done].
    cbn [mbind option_bind] in Hrun.
    destruct (one_at_a_time_cons _ _ _ _ Hstep Hone) as (Hle & Hle1 & Hone1).
    apply (IH w1); [done..|].
    unfold download_hidden in *.
    rewrite (step_download _ _ _ Hstep).
    pose proof (step_in_flight _ _ _ Hstep) as Hfl.
    destruct e; try done; try (rewrite Hfl; exact Hw).
    intros Hpos. lia.
Qed.

(** C9, as stated, fails in two places.  With two preprocess clicks in
    flight, the reply to the first shows the download container while the
    second round trip is still under way; and an upload leaves the log of the
    previous preprocessing in place. *)
Lemma download_shown_in_flight_and_log_kept_by_upload :
  (∃ w,
     run [SubmitUpload; UploadSettles upload_reply; ClickPreprocess;
          ClickPreprocess; PreprocessSettles preprocess_reply] boot = Some w
     ∧ preprocessings_in_flight w = 1
     ∧ download_shown (page w))
  ∧ (∃ w,
       run [SubmitUpload; UploadSettles upload_reply; ClickPreprocess;
            PreprocessSettles preprocess_reply; SubmitUpload] boot = Some w
       ∧ preprocess_log (page w) = [log_entry "Filled 1 cell of age"]).
Proof.
  split.
  - eexists. split; [vm_compute; reflexivity|].
    split; [reflexivity|]. vm_compute. reflexivity.
  - eexists. split; [vm_compute; reflexivity|]. reflexivity.
Qed.

(** C9, amended.  An upload submit and a preprocess click each hide the
    download container; the click also empties the log, the submit leaves
    the log as it is.  A step shows the container, when it was not shown
    before, only if it is the settling of a preprocess round trip whose
    reply is accepted and carries a log, and the link is then
    [/download/<cleaned_filename>].  On a run in which preprocessing round
    trips do not overlap, the container is hidden whenever one is in flight,
    and it is hidden after one that failed. *)
Theorem download_container_visibility :
  (∀ s, download_hidden (upload_submit s).2
        ∧ preprocess_log (upload_submit s).2 = preprocess_log s)
  ∧ (∀ s, download_hidden (preprocess_click s).2
          ∧ preprocess_log (preprocess_click s).2 = [])
  ∧ (∀ e w w',
       step e w = Some w' → download_shown (page w') → ¬ download_shown (page w) →
       ∃ r response data log,
         e = PreprocessSettles r ∧ r = Resolved response
         ∧ body response = Json data ∧ truthy (p_error data) = None
         ∧ p_log data = Some log
         ∧ downloadLink_href (page w') = "/download/" +:+ p_cleaned_filename data)
  ∧ (∀ evs w,
       run evs boot = Some w → one_at_a_time evs boot = true →
       (0 < preprocessings_in_flight w)%nat → download_hidden (page w))
  ∧ (∀ evs w r w',
       run evs boot = Some w → one_at_a_time evs boot = true →
       step (PreprocessSettles r) w = Some w' → preprocess_succeeds r = false →
       download_hidden (page w')).
Proof.
  split; [|split; [|split; [|split]]].
  - intros s. rewrite upload_submit_eval. proj.
    split; [|done]. unfold download_hidden. proj. by look.
  - intros s. rewrite preprocess_click_eval. proj.
    split; [|done]. unfold download_hidden. proj. by look.
  - intros e w w' Hstep Hshown Hnot. unfold download_shown in *.
    rewrite (step_download _ _ _ Hstep) in Hshown.
    destruct e as [|r| |r| |r|i|i|k i|k|k]; try done.
    unfold preprocess_succeeds in Hshown.
    cbn [step] in Hstep.
    destruct (preprocessings_in_flight w); [done|]. injection Hstep as <-.
    proj. rewrite preprocess_settled_eval. proj.
    destruct r as [e|[o st stt [e|data]]]; cbn [preprocess_accepted body] in *;
      try done.
    destruct (truthy (p_error data)) eqn:Herr; [done|].
    destruct (p_log data) as [log|] eqn:Hlog; [|done].
    eexists _, _, data, log. by repeat split.
  - intros evs w Hrun Hone Hpos.
    apply (run_hidden_in_flight _ _ _ Hrun Hone); [|done].
    cbn. lia.
  - intros evs w r w' Hrun Hone Hstep Hfail.
    unfold download_hidden. rewrite (step_download _ _ _ Hstep), Hfail.
    apply (run_hidden_in_flight _ _ _ Hrun Hone); [cbn; lia|].
    cbn [step] in Hstep. destruct (preprocessings_in_flight w); [done|lia].
Qed.

Lemma download_container_visibility_witness :
  ∃ w,
    run [SubmitUpload; UploadSettles upload_reply; ClickPreprocess] boot = Some w
    ∧ one_at_a_time [SubmitUpload; UploadSettles upload_reply; ClickPreprocess] boot
      = true
    ∧ (0 < preprocessings_in_flight w)%nat
    ∧ download_hidden (page w)
    ∧ ∃ w', step (PreprocessSettles preprocess_error_reply) w = Some w'
            ∧ preprocess_succeeds preprocess_error_reply = false
            ∧ download_hidden (page w').
Proof.
  destruct download_container_visibility as (_ & _ & _ & Hflight & Hfailed).
  destruct (run [SubmitUpload; UploadSettles upload_reply; ClickPreprocess] boot)
    as [w|] eqn:Hrun; [|exfalso; vm_compute in Hrun; discriminate Hrun].
  assert (Hone : one_at_a_time
                   [SubmitUpload; UploadSettles upload_reply; ClickPreprocess] boot
                 = true) by (vm_compute; reflexivity).
  assert (Hpos : (0 < preprocessings_in_flight w)%nat).
  { pose proof Hrun as Hw. vm_compute in Hw. injection Hw as <-. cbn. lia. }
  exists w. split; [reflexivity|]. split; [exact Hone|]. split; [exact Hpos|].
  split; [exact (Hflight _ w Hrun Hone Hpos)|].
  destruct (step (PreprocessSettles preprocess_error_reply) w) as [w'|] eqn:Hstep.
  - exists w'. split; [reflexivity|]. split; [reflexivity|].
    exact (Hfailed _ w _ w' Hrun Hone Hstep eq_refl).
  - exfalso. cbn [step] in Hstep.
    destruct (preprocessings_in_flight w); [lia|discriminate Hstep].
Defined.

(** ** The change listener and unknown columns *)

Lemma step_columns_before_choices e w w' :
  step e w = Some w' → complete e = true →
  columns_before_choices (page w) → columns_before_choices (page w').
Proof.
  unfold columns_before_choices. intros H Hcomplete Hinv.
  step_inv H; proj; try done.
  - cbn [complete] in Hcomplete. unfold complete_upload in Hcomplete.
    upload_cases r; try done.
    apply bool_decide_eq_true in Hcomplete.
    by destruct Hcomplete as [_ [? [=]]].
  - preprocess_cases r; done.
  - analyze_cases r; done.
  - case_decide; [done|]. proj. unfold column_change. js.
    rewrite updatePlotOptions_state. proj.
    apply choose_spec in Hsel as (Ho & _ & _).
    destruct (columns (page w)) as [cols|] eqn:Hcols; proj; rewrite ?Hcols;
      [done|]. intros _. rewrite Ho. by apply Hinv.
Qed.

Lemma run_columns_before_choices evs w w' :
  run evs w = Some w' → forallb complete evs = true →
  columns_before_choices (page w) → columns_before_choices (page w').
Proof. apply run_invariant, step_columns_before_choices. Qed.

(** C10. For a selected column that is not in [numeric], whether or not it
    occurs in the column structure at all, [updatePlotOptions] completes
    without throwing and leaves exactly the option [count], chosen.  The
    change listener always finds a column structure: on a run in which
    every accepted upload reply carries its column structure and insights,
    the column select has no option to choose before [columns] is set. *)
Theorem unknown_column_falls_back_to_count :
  (∀ (s : ui) (cols : Columns) (col : string),
     columns s = Some cols → col ∉ c_numeric cols →
     (updatePlotOptions col s).1 = Normal tt
     ∧ sel_options (plotTypeSelect (updatePlotOptions col s).2) =
         [("count", "Count Plot")]
     ∧ option_values (plotTypeSelect (updatePlotOptions col s).2) = ["count"]
     ∧ sel_value (plotTypeSelect (updatePlotOptions col s).2) = "count")
  ∧ (∀ evs w i sel,
       run evs boot = Some w → forallb complete evs = true →
       choose i (columnSelect (page w)) = Some sel →
       ∃ cols, columns (page w) = Some cols
               ∧ (column_change (set_columnSelect sel (page w))).1 = Normal tt).
Proof.
  split.
  - intros s cols col Hcols Hcol. rewrite (updatePlotOptions_eval _ _ _ Hcols).
    apply includes_false in Hcol. by rewrite Hcol.
  - intros evs w i sel Hrun Hcomplete Hsel.
    assert (Hinv : columns_before_choices (page w)).
    { by apply (run_columns_before_choices _ _ _ Hrun Hcomplete). }
    destruct (columns (page w)) as [cols|] eqn:Hcols.
    + exists cols. split; [done|]. unfold column_change. js.
      by rewrite updatePlotOptions_eval with (cols := cols).
    + unfold choose in Hsel. by rewrite (Hinv Hcols) in Hsel.
Qed.

Lemma unknown_column_falls_back_to_count_witness :
  columns (set_columns (Some the_columns) initial) = Some the_columns
  ∧ ("zip" ∉ c_numeric the_columns)
  ∧ ("zip" ∉ c_all the_columns)
  ∧ (let r := updatePlotOptions "zip" (set_columns (Some the_columns) initial) in
     r.1 = Normal tt
     ∧ sel_options (plotTypeSelect r.2) = [("count", "Count Plot")]
     ∧ option_values (plotTypeSelect r.2) = ["count"]
     ∧ sel_value (plotTypeSelect r.2) = "count").
Proof.
  assert (Hzip : "zip" ∉ c_numeric the_columns)
    by (apply includes_false; vm_compute; reflexivity).
  split; [reflexivity|]. split; [exact Hzip|].
  split; [apply includes_false; vm_compute; reflexivity|].
  exact (proj1 unknown_column_falls_back_to_count
           (set_columns (Some the_columns) initial) the_columns "zip" eq_refl Hzip).
Defined.

(** * Further properties of the handlers *)

(** ** Upload: what the user sees *)

Ltac looks :=
  repeat first [rewrite lookup_insert_eq | rewrite lookup_insert_ne by done].

(** X1. An upload attempt that runs from submit to settling without
    interruption always completes, hides its loader and leaves the download
    container hidden.  The main content is shown exactly when the reply is
    accepted and carries the column structure and the insights; then the
    error text is empty.  In every other case the main content stays hidden
    and the error text starts with [Upload failed: ]. *)
Theorem upload_shows_main_content_iff_loaded (s : ui) (r : fetched UploadData) :
  let s' := (upload_handler r s).2 in
  (upload_handler r s).1 = Normal tt
  ∧ display s' !! "loader" = Some "none"
  ∧ download_hidden s'
  ∧ (display s' !! "main-content" = Some "block" ↔
     ∃ data cols insights,
       upload_accepted r = Some data ∧ u_columns data = Some cols
       ∧ u_insights data = Some insights)
  ∧ ((display s' !! "main-content" = Some "block"
      ∧ inner s' !! "upload-error" = Some "")
     ∨ (display s' !! "main-content" = Some "none"
        ∧ ∃ message,
            inner s' !! "upload-error" = Some ("Upload failed: " +:+ message))).
Proof.
  intros s'. subst s'. unfold upload_handler, download_hidden.
  rewrite (bind_normal _ _ _ _ _ (upload_submit_eval s)).
  upload_cases r; looks; (do 3 (split; [done|])); split.
  - split; [|done]. intros _. by exists data, cols, insights.
  - by left.
  - split; [done|]. intros (? & ? & ? & [= <-] & ? & ?). congruence.
  - right. split; [done|]. by eexists.
  - split; [done|]. intros (? & ? & ? & [= <-] & ? & ?). congruence.
  - right. split; [done|]. by eexists.
  - split; [done|]. by intros (? & ? & ? & [=] & ?).
  - right. split; [done|]. by eexists.
Qed.

(** X2. An upload reply that is not accepted changes nothing on the page
    but the error text and the loader: the three script variables, the
    controls, both selects and the main content's visibility are as before.
    The text reports the message of the rejected [fetch], the status text
    of a reply that is not ok (whatever its body says), the parse error of a
    body that is not JSON, or the [error] field of the body. *)
Theorem rejected_upload_only_reports (s : ui) (r : fetched UploadData) :
  upload_accepted r = None →
  let s' := (upload_settled r s).2 in
  (∃ message,
     inner s' !! "upload-error" = Some ("Upload failed: " +:+ message)
     ∧ match r with
       | NetworkError e => message = e
       | Resolved response =>
           if ok response then
             match body response with
             | BadJson e => message = e
             | Json data => u_error data = Some message ∧ message ≠ ""
             end
           else message = "Server error: " +:+ statusText response
       end)
  ∧ (∀ id, id ≠ "upload-error" → inner s' !! id = inner s !! id)
  ∧ (∀ id, id ≠ "loader" → display s' !! id = display s !! id)
  ∧ currentFilename s' = currentFilename s
  ∧ currentCleanedFilename s' = currentCleanedFilename s
  ∧ columns s' = columns s
  ∧ missing_values_options s' = missing_values_options s
  ∧ outlier_options s' = outlier_options s
  ∧ normalize_options s' = normalize_options s
  ∧ columnSelect s' = columnSelect s
  ∧ plotTypeSelect s' = plotTypeSelect s.
Proof.
  intros Hrej s'. subst s'. rewrite upload_settled_eval, Hrej. proj.
  split; [|split; [|split]]; [| |by intros id Hid; rewrite lookup_insert_ne|done].
  - exists (upload_failure r). split; [by rewrite lookup_insert_eq|].
    unfold upload_accepted, upload_failure in *.
    destruct r as [e|[o st stt [e|data]]]; cbn [ok body statusText] in *;
      [done|by destruct o|].
    destruct o; [|done]. unfold truthy in *.
    destruct (u_error data) as [e|]; [|done].
    by destruct (decide (e = "")).
  - intros id Hid. by rewrite lookup_insert_ne.
Qed.

Lemma rejected_upload_only_reports_witness :
  let r : fetched UploadData :=
    Resolved (Build_Response false 400 "BAD REQUEST"
      (Json {| u_error := Some "Invalid file type"; u_filename := "";
               u_columns := None; u_preview := ""; u_insights := None |})) in
  upload_accepted r = None
  ∧ inner (upload_settled r initial).2 !! "upload-error" =
      Some "Upload failed: Server error: BAD REQUEST"
  ∧ currentFilename (upload_settled r initial).2 = None.
Proof.
  intros r.
  destruct (rejected_upload_only_reports initial r eq_refl)
    as ((message & Htext & Hmessage) & _ & _ & Hname & _).
  split; [reflexivity|]. split; [|exact Hname].
  cbn in Hmessage. by rewrite Htext, Hmessage.
Defined.

(** ** Analysis: what the user sees *)

(** X3. The analysis handler never changes the script variables, the
    controls, the selects, the log, the download link or the texts of the
    page.  When the reply is not accepted its [Error] item carries the
    message of the rejected [fetch], the parse error of a body that is not
    JSON (whatever the status), or, for a reply that is not ok, the [error]
    field of the body when it is non-empty and the status line otherwise. *)
Theorem analysis_reports_and_keeps_dataset (s : ui) (r : fetched AnalyzeData) :
  let s' := (analyze_settled r s).2 in
  (currentFilename s' = currentFilename s
   ∧ currentCleanedFilename s' = currentCleanedFilename s
   ∧ columns s' = columns s
   ∧ inner s' = inner s
   ∧ downloadLink_href s' = downloadLink_href s
   ∧ preprocess_log s' = preprocess_log s
   ∧ missing_values_options s' = missing_values_options s
   ∧ outlier_options s' = outlier_options s
   ∧ normalize_options s' = normalize_options s
   ∧ columnSelect s' = columnSelect s
   ∧ plotTypeSelect s' = plotTypeSelect s)
  ∧ (analyze_accepted r = None →
     ∃ message,
       stats_result s' = [stat_item ("Error", message)]
       ∧ match r with
         | NetworkError e => message = e
         | Resolved response =>
             match body response with
             | BadJson e => message = e
             | Json data =>
                 ok response = false
                 ∧ match a_error data with
                   | Some e =>
                       if decide (e = "")
                       then message = "Server responded with status: "
                                      +:+ pretty (status response)
                       else message = e
                   | None => message = "Server responded with status: "
                                       +:+ pretty (status response)
                   end
             end
         end).
Proof.
  intros s'. subst s'. rewrite analyze_settled_eval. proj. split.
  - destruct (analyze_accepted r) as [data|]; [|done].
    by destruct (a_stats data).
  - intros Hrej. rewrite Hrej. proj. exists (analyze_failure r).
    split; [done|]. unfold analyze_accepted, analyze_failure in *.
    destruct r as [e|[o st stt [e|data]]]; cbn [ok body status] in *;
      [done|done|].
    destruct o; [done|]. split; [done|]. unfold truthy.
    destruct (a_error data) as [e|]; [|done]. by destruct (decide (e = "")).
Qed.

Lemma analysis_reports_and_keeps_dataset_witness :
  let r : fetched AnalyzeData :=
    Resolved (Build_Response false 500 "INTERNAL SERVER ERROR"
      (Json {| a_error := Some ""; a_image := ""; a_stats := None |})) in
  analyze_accepted r = None
  ∧ stats_result (analyze_settled r initial).2 =
      [stat_item ("Error", "Server responded with status: 500")].
Proof.
  intros r.
  destruct (proj2 (analysis_reports_and_keeps_dataset initial r) eq_refl)
    as (message & Hitem & _ & Hmessage).
  split; [reflexivity|]. rewrite Hitem. cbn in Hmessage. rewrite Hmessage.
  vm_compute. reflexivity.
Defined.

(** ** Upload: the page after a new dataset *)

Lemma collect_missing_values_fresh (f : string → bool) (l : list string) :
  collect_missing_values ((λ col, missing_value_group (f col) col) <$> l) = ∅.
Proof.
  induction l as [|col l IH] using rev_ind; [done|].
  rewrite fmap_app. cbn [fmap list_fmap].
  rewrite collect_missing_values_snoc, IH.
  by rewrite decide_False by (by intros H; apply H).
Qed.

Lemma collect_checked_fresh (group : string → CheckboxGroup) (l : list string) :
  (∀ col, cb_checked (group col) = false) →
  collect_checked (group <$> l) = [].
Proof.
  intros Hfresh. unfold collect_checked.
  induction l as [|col l IH]; [done|].
  rewrite fmap_cons, filter_cons_False; [done|]. by rewrite Hfresh.
Qed.

(** X4. An accepted upload reply that carries the column structure and the
    insights, with no markup character in the names of [all], resets the
    page to the new dataset: both file names are the uploaded one; every
    control is back to its default, so that a preprocess click right away
    sends no action at all; the column select lists the columns of [all] in
    order with the first one chosen (nothing chosen when there is none), and
    the plot type select is the one of that column.  The log and the
    analysis results of the previous dataset are left on the page. *)
Theorem accepted_upload_resets_page
    (s : ui) (r : fetched UploadData) (data : UploadData)
    (cols : Columns) (insights : Insights) :
  upload_accepted r = Some data →
  u_columns data = Some cols →
  u_insights data = Some insights →
  forallb plain (c_all cols) = true →
  let s' := (upload_settled r s).2 in
  let first := default "" (head (c_all cols)) in
  (currentFilename s' = Some (u_filename data)
   ∧ currentCleanedFilename s' = Some (u_filename data)
   ∧ columns s' = Some cols)
  ∧ (inner s' !! "filename-display" = Some (u_filename data)
     ∧ inner s' !! "data-preview" = Some (u_preview data)
     ∧ inner s' !! "data-description" = Some (description insights)
     ∧ inner s' !! "data-info" = Some (info insights)
     ∧ display s' !! "main-content" = Some "block")
  ∧ collect_actions s' = {| missing_values := ∅; outliers := []; normalize := [] |}
  ∧ (sel_options (columnSelect s') = (λ col, (col, col)) <$> c_all cols
     ∧ sel_value (columnSelect s') = first
     ∧ option_values (plotTypeSelect s') =
         (if bool_decide (first ∈ c_numeric cols)
          then ["histogram"; "boxplot"] else ["count"])
     ∧ sel_value (plotTypeSelect s') =
         (if bool_decide (first ∈ c_numeric cols) then "histogram" else "count"))
  ∧ (preprocess_log s' = preprocess_log s
     ∧ plot_result s' = plot_result s
     ∧ stats_result s' = stats_result s
     ∧ downloadLink_href s' = downloadLink_href s).
Proof.
  intros Hacc Hcols Hins Hplain s' first. subst s' first.
  rewrite upload_settled_eval, Hacc. proj.
  rewrite displayInitialData_eval, Hins. proj. rewrite Hcols.
  rewrite populatePreprocessingTools_eval, updatePlotOptions_state. proj.
  rewrite parsed_options_plain by done.
  assert (Hfirst : sel_value (with_options (map (λ col, (col, col)) (c_all cols))
                                (columnSelect s))
                   = default "" (head (c_all cols))).
  { by destruct (c_all cols). }
  rewrite Hfirst. proj. looks.
  split; [done|]. split; [done|]. split; [|split; [|done]].
  - unfold collect_actions. proj.
    rewrite collect_missing_values_fresh, !collect_checked_fresh by done. done.
  - split; [done|]. split; [done|]. unfold option_values, includes.
    by destruct (bool_decide _).
Qed.

Lemma accepted_upload_resets_page_witness :
  ∃ data cols insights,
    upload_accepted upload_reply = Some data
    ∧ u_columns data = Some cols ∧ u_insights data = Some insights
    ∧ forallb plain (c_all cols) = true
    ∧ collect_actions (upload_settled upload_reply initial).2 =
        {| missing_values := ∅; outliers := []; normalize := [] |}
    ∧ sel_value (columnSelect (upload_settled upload_reply initial).2) = "age"
    ∧ sel_value (plotTypeSelect (upload_settled upload_reply initial).2) =
        "histogram".
Proof.
  eexists _, _, _. split; [reflexivity|]. split; [reflexivity|].
  split; [reflexivity|]. split; [reflexivity|].
  destruct (accepted_upload_resets_page initial upload_reply _ _ _
              eq_refl eq_refl eq_refl eq_refl) as (_ & _ & Hactions & Hselects & _).
  split; [exact Hactions|].
  destruct Hselects as (_ & Hcolumn & _ & Hplot). split; [exact Hcolumn|exact Hplot].
Defined.

(** ** The preprocessing controls as built *)

(** X5. [populatePreprocessingTools] discards whatever controls the page
    held and builds them anew from the column structure alone.  When no
    name of [all] holds a markup character, these are: one missing-value
    select per entry of [all], in that order, labelled with the column and
    set to [none]; one outlier and one normalization checkbox per entry of
    [all] that is in [numeric], in that order, unchecked, with the ids
    [outlier-<column>] and [norm-<column>]. *)
Theorem populate_rebuilds_controls (cols : Columns) (s1 s2 : ui) :
  forallb plain (c_all cols) = true →
  let s' := (populatePreprocessingTools (Some cols) s1).2 in
  ((λ g, sel_column (og_select g)) <$> missing_values_options s' = c_all cols
   ∧ og_label <$> missing_values_options s' = c_all cols
   ∧ Forall (λ g, sel_value (og_select g) = "none"
                  ∧ sel_class (og_select g) = "missing-value-select")
            (missing_values_options s'))
  ∧ (cb_column <$> outlier_options s' =
       filter (λ col, col ∈ c_numeric cols) (c_all cols)
     ∧ cb_column <$> normalize_options s' =
         filter (λ col, col ∈ c_numeric cols) (c_all cols)
     ∧ Forall (λ b, cb_checked b = false ∧ cb_class b = "outlier-checkbox"
                    ∧ cb_id b = "outlier-" +:+ cb_column b
                    ∧ cb_label b = cb_column b)
              (outlier_options s')
     ∧ Forall (λ b, cb_checked b = false ∧ cb_class b = "normalize-checkbox"
                    ∧ cb_id b = "norm-" +:+ cb_column b
                    ∧ cb_label b = cb_column b)
              (normalize_options s'))
  ∧ (missing_values_options s' =
       missing_values_options (populatePreprocessingTools (Some cols) s2).2
     ∧ outlier_options s' =
         outlier_options (populatePreprocessingTools (Some cols) s2).2
     ∧ normalize_options s' =
         normalize_options (populatePreprocessingTools (Some cols) s2).2).
Proof.
  intros Hplain s'. subst s'.
  pose proof (populated_numeric_side cols s1) as Hside.
  unfold numeric_side in Hside.
  rewrite !populated_missing, !populated_outlier, !populated_normalize in *.
  rewrite parsed_names_plain in Hside by (by apply filter_plain).
  split; [|split; [|done]].
  - rewrite <- !list_fmap_compose. split; [|split].
    + by apply parsed_names_plain.
    + by apply parsed_names_plain.
    + apply Forall_fmap, Forall_forall. intros col _. cbn.
      by destruct (includes (c_numeric cols) col).
  - split; [done|]. split; [|split].
    + rewrite <- Hside, <- !list_fmap_compose. done.
    + apply Forall_fmap, Forall_forall. by intros col _.
    + apply Forall_fmap, Forall_forall. by intros col _.
Qed.

Lemma populate_rebuilds_controls_witness :
  forallb plain (c_all the_columns) = true
  ∧ (let s' := (populatePreprocessingTools (Some the_columns) initial).2 in
     (λ g, sel_column (og_select g)) <$> missing_values_options s' = ["age"; "city"]
     ∧ og_label <$> missing_values_options s' = ["age"; "city"]
     ∧ cb_id <$> outlier_options s' = ["outlier-age"]
     ∧ cb_id <$> normalize_options s' = ["norm-age"]).
Proof.
  split; [reflexivity|].
  destruct (populate_rebuilds_controls the_columns initial initial eq_refl)
    as ((Hcolumns & Hlabels & _) & _ & _).
  split; [exact Hcolumns|]. split; [exact Hlabels|].
  split; vm_compute; reflexivity.
Defined.

(** ** Loaders *)

Lemma step_loaders e w w' :
  step e w = Some w' →
  display (page w') !! "loader" =
    match e with
    | SubmitUpload => Some "block"
    | UploadSettles _ => Some "none"
    | _ => display (page w) !! "loader"
    end
  ∧ display (page w') !! "preprocess-loader" =
      match e with
      | ClickPreprocess => Some "block"
      | PreprocessSettles _ => Some "none"
      | _ => display (page w) !! "preprocess-loader"
      end
  ∧ display (page w') !! "analysis-loader" =
      match e with
      | ClickAnalyze => Some "block"
      | AnalyzeSettles _ => Some "none"
      | _ => display (page w) !! "analysis-loader"
      end.
Proof.
  intros H. step_inv H; proj; looks; try done.
  - upload_cases r; by looks.
  - preprocess_cases r; by looks.
  - analyze_cases r; by looks.
  - case_decide; [done|]. proj. unfold column_change. js.
    rewrite updatePlotOptions_state. proj. by destruct (columns _).
Qed.

Lemma step_counters e w w' :
  step e w = Some w' →
  uploads_in_flight w' =
    match e with
    | SubmitUpload => S (uploads_in_flight w)
    | UploadSettles _ => pred (uploads_in_flight w)
    | _ => uploads_in_flight w
    end
  ∧ analyses_in_flight w' =
      match e with
      | ClickAnalyze => S (analyses_in_flight w)
      | AnalyzeSettles _ => pred (analyses_in_flight w)
      | _ => analyses_in_flight w
      end.
Proof.
  intros H. step_inv H; proj; try done.
  by case_decide.
Qed.

Lemma step_loaders_idle e w w' :
  step e w = Some w' → loaders_idle w → loaders_idle w'.
Proof.
  intros Hstep (Hu & Hp & Ha). unfold loaders_idle.
  destruct (step_loaders _ _ _ Hstep) as (-> & -> & ->).
  destruct (step_counters _ _ _ Hstep) as (-> & ->).
  rewrite (step_in_flight _ _ _ Hstep).
  destruct e; repeat split; try done.
Qed.

(** X6. Every settling hides the loader of its handler, whatever the
    outcome, and every first segment shows it.  So on every run, overlapping
    round trips included, a loader is never left showing once no round trip
    of its kind is in flight. *)
Theorem loaders_hidden_when_nothing_in_flight :
  (∀ s r, display (upload_settled r s).2 !! "loader" = Some "none")
  ∧ (∀ s r, display (preprocess_settled r s).2 !! "preprocess-loader" = Some "none")
  ∧ (∀ s r, display (analyze_settled r s).2 !! "analysis-loader" = Some "none")
  ∧ (∀ s, display (upload_submit s).2 !! "loader" = Some "block"
          ∧ display (preprocess_click s).2 !! "preprocess-loader" = Some "block"
          ∧ display (analyze_click s).2 !! "analysis-loader" = Some "block")
  ∧ (∀ evs w, run evs boot = Some w → loaders_idle w).
Proof.
  split; [|split; [|split; [|split]]].
  - intros s r. upload_cases r; by looks.
  - intros s r. preprocess_cases r; by looks.
  - intros s r. analyze_cases r; by looks.
  - intros s. rewrite upload_submit_eval, preprocess_click_eval, analyze_click_eval.
    proj. by looks.
  - intros evs w Hrun.
    assert (Hgen : ∀ evs w0 w, run evs w0 = Some w → loaders_idle w0 → loaders_idle w).
    { clear. induction evs as [|e evs IH]; intros w0 w Hrun Hidle.
      - by injection Hrun as <-.
      - rewrite run_cons in Hrun. destruct (step e w0) as [w1|] eqn:Hstep; [|done].
        cbn [mbind option_bind] in Hrun.
        apply (IH w1 w Hrun). by apply (step_loaders_idle e w0). }
    apply (Hgen evs boot w Hrun). by repeat split.
Qed.

Lemma loaders_hidden_when_nothing_in_flight_witness :
  ∃ w,
    run [SubmitUpload; ClickPreprocess; ClickPreprocess;
         PreprocessSettles preprocess_error_reply;
         PreprocessSettles preprocess_reply] boot = Some w
    ∧ loaders_idle w
    ∧ preprocessings_in_flight w = 0
    ∧ display (page w) !! "preprocess-loader" = Some "none"
    ∧ display (page w) !! "loader" = Some "block".
Proof.
  destruct (run [SubmitUpload; ClickPreprocess; ClickPreprocess;
                 PreprocessSettles preprocess_error_reply;
                 PreprocessSettles preprocess_reply] boot) as [w|] eqn:Hrun;
    [|exfalso; vm_compute in Hrun; discriminate Hrun].
  exists w. split; [reflexivity|].
  split; [exact (proj2 (proj2 (proj2 (proj2
            loaders_hidden_when_nothing_in_flight))) _ w Hrun)|].
  vm_compute in Hrun. injection Hrun as <-.
  split; [reflexivity|]. split; vm_compute; reflexivity.
Defined.

(** ** The download link *)

Lemma step_href e w w' acc :
  step e w = Some w' →
  downloadLink_href (page w) = download_href acc →
  (download_shown (page w) → is_Some acc) →
  downloadLink_href (page w') = download_href (note_cleaned acc e)
  ∧ (download_shown (page w') → is_Some (note_cleaned acc e)).
Proof.
  intros Hstep Hhref Hshown. unfold download_shown in *.
  rewrite (step_download _ _ _ Hstep). split.
  - clear Hshown. step_inv Hstep; cbn [note_cleaned]; proj; try done.
    + upload_cases r; done.
    + preprocess_cases r; done.
    + analyze_cases r; done.
    + case_decide; [done|]. proj. unfold column_change. js.
      rewrite updatePlotOptions_state. proj. by destruct (columns _).
  - destruct e; cbn [note_cleaned]; try done.
    unfold preprocess_succeeds.
    destruct (preprocess_accepted r) as [data|]; [|done].
    by destruct (bool_decide (is_Some (p_log data))).
Qed.

Lemma run_href evs w w' acc :
  run evs w = Some w' →
  downloadLink_href (page w) = download_href acc →
  (download_shown (page w) → is_Some acc) →
  downloadLink_href (page w') = download_href (foldl note_cleaned acc evs)
  ∧ (download_shown (page w') → is_Some (foldl note_cleaned acc evs)).
Proof.
  revert w acc. induction evs as [|e evs IH]; intros w acc Hrun Hhref Hshown.
  - by injection Hrun as <-.
  - rewrite run_cons in Hrun. destruct (step e w) as [w1|] eqn:Hstep; [|done].
    cbn [mbind option_bind] in Hrun.
    destruct (step_href _ _ _ _ Hstep Hhref Hshown) as [Hhref1 Hshown1].
    exact (IH w1 _ Hrun Hhref1 Hshown1).
Qed.

(** X7. On every run the download link points at the cleaned file of the
    latest preprocess reply whose success path ran to its end (and is empty
    before the first one), and the download container is never shown before
    such a reply has arrived: a visible download link always names a file
    that the server returned. *)
Theorem download_link_names_last_cleaned_file (evs : list event) (w : world) :
  run evs boot = Some w →
  downloadLink_href (page w) = download_href (last_cleaned evs)
  ∧ (download_shown (page w) →
     ∃ name, last_cleaned evs = Some name
             ∧ downloadLink_href (page w) = "/download/" +:+ name).
Proof.
  intros Hrun.
  destruct (run_href evs boot w None Hrun eq_refl) as [Hhref Hshown].
  { unfold download_shown. cbn. by rewrite lookup_empty. }
  split; [done|]. intros [name Hname]%Hshown. exists name.
  unfold last_cleaned. by rewrite Hhref, Hname.
Qed.

Lemma download_link_names_last_cleaned_file_witness :
  ∃ w,
    run [SubmitUpload; UploadSettles upload_reply; ClickPreprocess;
         PreprocessSettles preprocess_reply; ClickPreprocess;
         PreprocessSettles preprocess_error_reply] boot = Some w
    ∧ downloadLink_href (page w) = "/download/cleaned_people.csv".
Proof.
  destruct (run [SubmitUpload; UploadSettles upload_reply; ClickPreprocess;
                 PreprocessSettles preprocess_reply; ClickPreprocess;
                 PreprocessSettles preprocess_error_reply] boot) as [w|] eqn:Hrun;
    [|exfalso; vm_compute in Hrun; discriminate Hrun].
  exists w. split; [reflexivity|].
  exact (proj1 (download_link_names_last_cleaned_file _ w Hrun)).
Defined.

(** ** Analysis while the user goes on *)

(** X8. The request of an analyze click carries the column selected at the
    click, but the heading of the statistics names the column selected when
    the reply arrives: if the user picks another column while the request is
    in flight, the statistics of the requested column are shown under the
    name of the other one. *)
Theorem heading_names_column_chosen_while_waiting
    (w : world) (i : nat) (sel : Select) (r : fetched AnalyzeData)
    (data : AnalyzeData) (kvs : list (string * string)) :
  choose i (columnSelect (page w)) = Some sel →
  sel_value sel ≠ sel_value (columnSelect (page w)) →
  analyze_accepted r = Some data →
  a_stats data = Some kvs →
  ∃ w',
    run [ClickAnalyze; ChooseColumn i; AnalyzeSettles r] w = Some w'
    ∧ sent w' =
        PostAnalyze (currentCleanedFilename (page w))
          (sel_value (columnSelect (page w)))
          (sel_value (plotTypeSelect (page w))) :: sent w
    ∧ plot_result (page w') = [plot_image (a_image data)]
    ∧ stats_result (page w') = stats_heading (sel_value sel) :: (stat_item <$> kvs).
Proof.
  intros Hsel Hne Hacc Hstats.
  cbn [run step]. rewrite analyze_click_eval. proj.
  cbn [mbind option_bind]. proj. rewrite Hsel. cbn [mbind option_bind].
  rewrite decide_False by done. proj.
  eexists. split; [reflexivity|]. proj. split; [done|].
  rewrite analyze_settled_eval, Hacc, Hstats. proj.
  unfold column_change. js. rewrite updatePlotOptions_state. proj.
  split; [done|]. by destruct (columns (page w)).
Qed.

Lemma heading_names_column_chosen_while_waiting_witness :
  ∃ w w',
    run [SubmitUpload; UploadSettles upload_reply] boot = Some w
    ∧ sel_value (columnSelect (page w)) = "age"
    ∧ run [ClickAnalyze; ChooseColumn 1; AnalyzeSettles analyze_reply] w = Some w'
    ∧ head (sent w') = Some (PostAnalyze (Some "people.csv") "age" "histogram")
    ∧ head (stats_result (page w')) = Some (stats_heading "city").
Proof.
  destruct (run [SubmitUpload; UploadSettles upload_reply] boot) as [w|] eqn:Hrun;
    [|exfalso; vm_compute in Hrun; discriminate Hrun].
  vm_compute in Hrun. injection Hrun as <-.
  match goal with |- ∃ w w', Some ?w0 = Some w ∧ _ => set (w1 := w0) end.
  destruct (heading_names_column_chosen_while_waiting w1 1
              {| sel_class := ""; sel_column := "";
                 sel_options := [("age", "age"); ("city", "city")];
                 sel_value := "city" |}
              analyze_reply _ _ eq_refl ltac:(discriminate) eq_refl eq_refl)
    as (w' & Hrun' & Hsent & _ & Hstats).
  exists w1, w'. split; [reflexivity|]. split; [reflexivity|].
  split; [exact Hrun'|]. split; [by rewrite Hsent|by rewrite Hstats].
Defined.

(** ** Preprocessing: what a failure leaves behind *)

(** X9. A preprocess reply that is not accepted (a rejected [fetch], a body
    that is not JSON, a non-empty [error] field) changes nothing but the log
    and the loader: the snapshot that analysis uses, the preview, the
    download link and its visibility, the controls and their choices are as
    before.  The log holds the single failure message, with the message of
    the rejection, the parse error or the [error] field. *)
Theorem rejected_preprocessing_keeps_snapshot
    (s : ui) (r : fetched PreprocessData) :
  preprocess_accepted r = None →
  let s' := (preprocess_settled r s).2 in
  (∃ message,
     preprocess_log s' = [preprocess_failure message]
     ∧ match r with
       | NetworkError e => message = e
       | Resolved response =>
           match body response with
           | BadJson e => message = e
           | Json data => p_error data = Some message ∧ message ≠ ""
           end
       end)
  ∧ currentFilename s' = currentFilename s
  ∧ currentCleanedFilename s' = currentCleanedFilename s
  ∧ columns s' = columns s
  ∧ inner s' = inner s
  ∧ downloadLink_href s' = downloadLink_href s
  ∧ (∀ id, id ≠ "preprocess-loader" → display s' !! id = display s !! id)
  ∧ missing_values_options s' = missing_values_options s
  ∧ outlier_options s' = outlier_options s
  ∧ normalize_options s' = normalize_options s.
Proof.
  intros Hrej s'. subst s'. rewrite preprocess_settled_eval, Hrej. proj.
  split; [|do 5 (split; [done|]); split; [|done]].
  - exists (preprocess_failure_message r). split; [done|].
    unfold preprocess_accepted, preprocess_failure_message in *.
    destruct r as [e|[o st stt [e|data]]]; cbn [body] in *; [done|done|].
    unfold truthy in *. destruct (p_error data) as [e|]; [|done].
    by destruct (decide (e = "")).
  - intros id Hid. by rewrite lookup_insert_ne.
Qed.

Lemma rejected_preprocessing_keeps_snapshot_witness :
  preprocess_accepted preprocess_error_reply = None
  ∧ preprocess_log (preprocess_settled preprocess_error_reply initial).2 =
      [preprocess_failure "File not found"]
  ∧ currentCleanedFilename (preprocess_settled preprocess_error_reply initial).2 =
      None.
Proof.
  destruct (rejected_preprocessing_keeps_snapshot initial preprocess_error_reply
              eq_refl) as ((message & Hlog & Hmessage) & _ & Hname & _).
  split; [reflexivity|]. split; [|exact Hname].
  cbn in Hmessage. destruct Hmessage as [[= <-] _]. exact Hlog.
Defined.

(** X10. A failure of the preprocess handler is not all-or-nothing.  For a
    reply that is accepted but carries no log, the assignment of line 72 has
    already run when line 73 throws: the log shows the failure message,
    the preview, the download link and its visibility stay as they were,
    and yet [currentCleanedFilename] is the cleaned file of the reply, so
    the next analysis request names that file. *)
Theorem preprocessing_without_log_moves_snapshot
    (s : ui) (r : fetched PreprocessData) (data : PreprocessData) :
  preprocess_accepted r = Some data →
  p_log data = None →
  let s' := (preprocess_settled r s).2 in
  preprocess_log s' = [preprocess_failure (type_error "map")]
  ∧ inner s' = inner s
  ∧ downloadLink_href s' = downloadLink_href s
  ∧ display s' !! "download-container" = display s !! "download-container"
  ∧ currentCleanedFilename s' = Some (p_cleaned_filename data)
  ∧ (analyze_click s').1 =
      Normal (PostAnalyze (Some (p_cleaned_filename data))
                (sel_value (columnSelect s)) (sel_value (plotTypeSelect s))).
Proof.
  intros Hacc Hlog s'. subst s'.
  rewrite preprocess_settled_eval, Hacc, Hlog, analyze_click_eval. proj.
  do 3 (split; [done|]). split; [by looks|done].
Qed.

Lemma preprocessing_without_log_moves_snapshot_witness :
  let r : fetched PreprocessData :=
    Resolved (Build_Response true 200 "OK"
      (Json {| p_error := None; p_cleaned_filename := "cleaned_people.csv";
               p_log := None; p_preview := "<table></table>" |})) in
  ∃ data,
    preprocess_accepted r = Some data ∧ p_log data = None
    ∧ preprocess_log (preprocess_settled r initial).2 =
        [preprocess_failure (type_error "map")]
    ∧ currentCleanedFilename (preprocess_settled r initial).2 =
        Some "cleaned_people.csv".
Proof.
  intros r. eexists. split; [reflexivity|]. split; [reflexivity|].
  destruct (preprocessing_without_log_moves_snapshot initial r _ eq_refl eq_refl)
    as (Hlog & _ & _ & _ & Hname & _).
  split; [exact Hlog|exact Hname].
Defined.

(** X11. The preprocess handler never looks at the HTTP status: two replies
    with the same body leave the same page, whatever [ok], [status] and
    [statusText] say.  The analysis handler does look: a reply that is not
    ok never shows its image or statistics, and the upload handler rejects
    a reply that is not ok without reading its body. *)
Theorem only_preprocessing_ignores_status :
  (∀ s (response1 response2 : Response PreprocessData),
     body response1 = body response2 →
     preprocess_settled (Resolved response1) s =
     preprocess_settled (Resolved response2) s)
  ∧ (∀ s (response : Response AnalyzeData),
       ok response = false →
       plot_result (analyze_settled (Resolved response) s).2 = [analysis_failed])
  ∧ (∀ s (response1 response2 : Response UploadData),
       ok response1 = false → ok response2 = false →
       statusText response1 = statusText response2 →
       upload_settled (Resolved response1) s =
       upload_settled (Resolved response2) s).
Proof.
  split; [|split].
  - intros s [o1 st1 stt1 b1] [o2 st2 stt2 b2] Hbody. cbn in Hbody. subst b2.
    by rewrite !preprocess_settled_eval.
  - intros s [o st stt b] Hok. cbn in Hok. subst o.
    rewrite analyze_settled_eval. by destruct b.
  - intros s [o1 st1 stt1 b1] [o2 st2 stt2 b2] Hok1 Hok2 Htext.
    cbn in Hok1, Hok2, Htext. subst.
    by rewrite !upload_settled_eval.
Qed.

Lemma only_preprocessing_ignores_status_witness :
  preprocess_settled
    (Resolved (Build_Response false 500 "INTERNAL SERVER ERROR"
       (Json {| p_error := None; p_cleaned_filename := "cleaned_people.csv";
                p_log := Some ["Filled 1 cell of age"];
                p_preview := "<table></table>" |}))) initial
  = preprocess_settled preprocess_reply initial.
Proof.
  exact (proj1 only_preprocessing_ignores_status initial _ _ eq_refl).
Defined.

(** ** The actions object with repeated columns *)

(** X12. When several missing-value selects carry the same column name,
    other than [__proto__], the entry of [missing_values] is the value of
    the last of them that is not on [none]: earlier choices for that column
    are overwritten.  The name [__proto__] never becomes a key, whatever the
    selects are on.  When every select is on [none] the object is empty. *)
Theorem later_select_overrides_earlier (gs gs' : list OptionGroup) (g : OptionGroup) :
  sel_column (og_select g) ≠ "__proto__" →
  sel_value (og_select g) ≠ "none" →
  (∀ g', g' ∈ gs' → sel_column (og_select g') = sel_column (og_select g) →
         sel_value (og_select g') = "none") →
  collect_missing_values (gs ++ g :: gs')%list !! sel_column (og_select g)
    = Some (sel_value (og_select g))
  ∧ collect_missing_values (gs ++ g :: gs')%list !! "__proto__" = None
  ∧ ((∀ g', g' ∈ gs → sel_value (og_select g') = "none") →
     collect_missing_values gs = ∅).
Proof.
  intros Hproto Hval Hlater. split; [|split].
  - induction gs' as [|x gs' IH] using rev_ind.
    + rewrite collect_missing_values_snoc, decide_True by done.
      rewrite lookup_assign_property, decide_False by done.
      by rewrite decide_True.
    + replace (gs ++ g :: gs' ++ [x])%list with ((gs ++ g :: gs') ++ [x])%list
        by (by rewrite <- app_assoc).
      rewrite collect_missing_values_snoc.
      assert (IH' : collect_missing_values (gs ++ g :: gs')%list
                      !! sel_column (og_select g) = Some (sel_value (og_select g))).
      { apply IH. intros g' Hg'. apply Hlater, elem_of_app. by left. }
      case_decide as Hx; [|done].
      rewrite lookup_assign_property. case_decide; [done|].
      rewrite decide_False; [done|]. intros Hcol. apply Hx.
      apply Hlater; [|done]. apply elem_of_app. right. apply list_elem_of_here.
  - apply collect_missing_values_proto.
  - clear. intros Hnone. induction gs as [|x gs IH] using rev_ind; [done|].
    rewrite collect_missing_values_snoc, decide_False.
    + apply IH. intros g' Hg'. apply Hnone, elem_of_app. by left.
    + intros Hx. apply Hx, Hnone, elem_of_app. right. apply list_elem_of_here.
Qed.

Lemma later_select_overrides_earlier_witness :
  let pick (v : string) : OptionGroup :=
    {| og_label := "age";
       og_select := {| sel_class := "missing-value-select"; sel_column := "age";
                       sel_options := missing_value_options true;
                       sel_value := v |} |} in
  sel_column (og_select (pick "median")) ≠ "__proto__"
  ∧ collect_missing_values [pick "mean"; pick "median"; pick "none"] !! "age"
    = Some "median".
Proof.
  intros pick.
  assert (Hname : sel_column (og_select (pick "median")) ≠ "__proto__")
    by discriminate.
  split; [exact Hname|].
  refine (proj1 (later_select_overrides_earlier [pick "mean"] [pick "none"]
                   (pick "median") Hname _ _)).
  - discriminate.
  - intros g' Hg' _. apply list_elem_of_singleton in Hg'. by subst g'.
Defined.

(** ** The main content *)

Lemma step_main_content e w w' :
  step e w = Some w' →
  display (page w') !! "main-content" =
  match e with
  | SubmitUpload => Some "none"
  | UploadSettles r =>
      match upload_accepted r with
      | Some data =>
          match u_columns data, u_insights data with
          | Some _, Some _ => Some "block"
          | _, _ => display (page w) !! "main-content"
          end
      | None => display (page w) !! "main-content"
      end
  | _ => display (page w) !! "main-content"
  end.
Proof.
  intros H. step_inv H; proj; looks; try done.
  - upload_cases r; looks; try done. by destruct (u_columns _).
  - preprocess_cases r; by looks.
  - analyze_cases r; by looks.
  - case_decide; [done|]. proj. unfold column_change. js.
    rewrite updatePlotOptions_state. proj. by destruct (columns _).
Qed.

Lemma step_visible_page_has_names e w w' :
  step e w = Some w' →
  visible_page_has_names (page w) → visible_page_has_names (page w').
Proof.
  unfold visible_page_has_names. intros Hstep Hinv.
  rewrite (step_main_content _ _ _ Hstep), (step_currentFilename _ _ _ Hstep),
    (step_currentCleanedFilename _ _ _ Hstep).
  destruct e as [|r| |r| |r|i|i|k i|k|k]; cbn [note_upload note_snapshot];
    try done.
  - destruct (upload_accepted r) as [data|]; [|done].
    intros _. split; by eexists.
  - intros Hshown. destruct (Hinv Hshown) as [Hf Hc]. split; [done|].
    by destruct (preprocess_accepted r).
Qed.

(** X13. On every run, whenever the main content is shown both
    [currentFilename] and [currentCleanedFilename] hold a name: a preprocess
    or analyze request sent from a visible page never carries [null] for the
    file.  The main content is shown only by an accepted upload reply and is
    hidden by every submit. *)
Theorem visible_page_sends_file_names (evs : list event) (w : world) :
  run evs boot = Some w →
  display (page w) !! "main-content" = Some "block" →
  ∃ uploaded snapshot,
    (preprocess_click (page w)).1 =
      Normal (PostPreprocess (Some uploaded) (collect_actions (page w)))
    ∧ (analyze_click (page w)).1 =
        Normal (PostAnalyze (Some snapshot)
                  (sel_value (columnSelect (page w)))
                  (sel_value (plotTypeSelect (page w))))
    ∧ uploaded_filename evs = Some uploaded.
Proof.
  intros Hrun Hshown.
  assert (Hgen : ∀ evs w0 w, run evs w0 = Some w →
            visible_page_has_names (page w0) → visible_page_has_names (page w)).
  { clear. induction evs as [|e evs IH]; intros w0 w Hrun Hinv.
    - by injection Hrun as <-.
    - rewrite run_cons in Hrun. destruct (step e w0) as [w1|] eqn:Hstep; [|done].
      cbn [mbind option_bind] in Hrun.
      apply (IH w1 w Hrun). by apply (step_visible_page_has_names e w0). }
  destruct (Hgen evs boot w Hrun) as [[uploaded Hf] [snapshot Hc]]; [|done|].
  { intros Hboot. cbn in Hboot. by rewrite lookup_empty in Hboot. }
  exists uploaded, snapshot.
  rewrite preprocess_click_eval, analyze_click_eval. proj.
  rewrite Hf, Hc. split; [done|]. split; [done|].
  destruct (run_filenames _ _ _ Hrun) as [Hname _].
  rewrite Hf in Hname. exact (eq_sym Hname).
Qed.

Lemma visible_page_sends_file_names_witness :
  ∃ w,
    run [SubmitUpload; UploadSettles upload_reply] boot = Some w
    ∧ display (page w) !! "main-content" = Some "block"
    ∧ (preprocess_click (page w)).1 =
        Normal (PostPreprocess (Some "people.csv") (collect_actions (page w))).
Proof.
  destruct (run [SubmitUpload; UploadSettles upload_reply] boot) as [w|] eqn:Hrun;
    [|exfalso; vm_compute in Hrun; discriminate Hrun].
  assert (Hshown : display (page w) !! "main-content" = Some "block").
  { pose proof Hrun as Hw. vm_compute in Hw. injection Hw as <-.
    vm_compute. reflexivity. }
  exists w. split; [reflexivity|]. split; [exact Hshown|].
  destruct (visible_page_sends_file_names _ w Hrun Hshown)
    as (uploaded & snapshot & Hpre & _ & Hname).
  vm_compute in Hname. injection Hname as <-. exact Hpre.
Defined.

(** ** The change listener resets the plot type *)

(** X14. Picking another column rebuilds the plot type select and chooses
    its first option: whatever plot type the user had picked before, the
    choice after the change is [histogram] for a column in [numeric] and
    [count] for any other, so a [boxplot] choice does not survive a move
    between two numeric columns.  Nothing else on the page changes. *)
Theorem changing_column_resets_plot_type
    (w : world) (i j : nat) (cols : Columns) (picked chosen : Select) :
  columns (page w) = Some cols →
  choose j (plotTypeSelect (page w)) = Some picked →
  choose i (columnSelect (page w)) = Some chosen →
  sel_value chosen ≠ sel_value (columnSelect (page w)) →
  ∃ w',
    run [ChoosePlotType j; ChooseColumn i] w = Some w'
    ∧ sel_value (columnSelect (page w')) = sel_value chosen
    ∧ sel_value (plotTypeSelect (page w')) =
        (if bool_decide (sel_value chosen ∈ c_numeric cols)
         then "histogram" else "count")
    ∧ option_values (plotTypeSelect (page w')) =
        (if bool_decide (sel_value chosen ∈ c_numeric cols)
         then ["histogram"; "boxplot"] else ["count"])
    ∧ collect_actions (page w') = collect_actions (page w)
    ∧ currentFilename (page w') = currentFilename (page w)
    ∧ currentCleanedFilename (page w') = currentCleanedFilename (page w)
    ∧ sent w' = sent w.
Proof.
  intros Hcols Hpicked Hchosen Hne.
  cbn [run step]. rewrite Hpicked. cbn [mbind option_bind]. proj.
  rewrite Hchosen. cbn [mbind option_bind]. rewrite decide_False by done. proj.
  eexists. split; [reflexivity|]. proj.
  unfold column_change. js. rewrite updatePlotOptions_state. proj.
  rewrite Hcols. proj. unfold option_values, includes.
  split; [done|]. by destruct (bool_decide _).
Qed.

Lemma changing_column_resets_plot_type_witness :
  let numbers : Columns :=
    {| c_all := ["age"; "height"]; c_numeric := ["age"; "height"];
       c_categorical := [] |} in
  let reply : fetched UploadData :=
    Resolved (Build_Response true 200 "OK"
      (Json {| u_error := None; u_filename := "sizes.csv";
               u_columns := Some numbers; u_preview := "";
               u_insights := Some {| description := ""; info := "" |} |})) in
  ∃ w w',
    run [SubmitUpload; UploadSettles reply; ChoosePlotType 1] boot = Some w
    ∧ sel_value (plotTypeSelect (page w)) = "boxplot"
    ∧ run [ChoosePlotType 1; ChooseColumn 1] w = Some w'
    ∧ sel_value (columnSelect (page w')) = "height"
    ∧ sel_value (plotTypeSelect (page w')) = "histogram".
Proof.
  intros numbers reply.
  destruct (run [SubmitUpload; UploadSettles reply; ChoosePlotType 1] boot)
    as [w|] eqn:Hrun; [|exfalso; vm_compute in Hrun; discriminate Hrun].
  vm_compute in Hrun. injection Hrun as <-.
  match goal with |- ∃ w w', Some ?w0 = Some w ∧ _ => set (w1 := w0) end.
  destruct (changing_column_resets_plot_type w1 1 1 numbers
              {| sel_class := ""; sel_column := "";
                 sel_options := numeric_plot_options; sel_value := "boxplot" |}
              {| sel_class := ""; sel_column := "";
                 sel_options := [("age", "age"); ("height", "height")];
                 sel_value := "height" |}
              eq_refl eq_refl eq_refl ltac:(discriminate))
    as (w' & Hrun' & Hcolumn & Hplot & _).
  exists w1, w'. split; [reflexivity|]. split; [reflexivity|].
  split; [exact Hrun'|]. split; [exact Hcolumn|exact Hplot].
Defined.

(** ** Upload: what an incomplete reply leaves behind *)

(** X15. A failure of the upload handler is not all-or-nothing either.  For
    a reply that passes the checks but lacks the insights or the column
    structure, lines 35-37 have run when [displayInitialData] throws: the
    page reports [Upload failed] and keeps the main content as it was, yet
    both file names are those of the reply and [columns] is what the reply
    carried.  Without insights the controls and both selects are untouched;
    with insights but without columns the three control containers have
    been emptied. *)
Theorem incomplete_upload_moves_file_names
    (s : ui) (r : fetched UploadData) (data : UploadData) :
  upload_accepted r = Some data →
  u_columns data = None ∨ u_insights data = None →
  let s' := (upload_settled r s).2 in
  (∃ message, inner s' !! "upload-error" = Some ("Upload failed: " +:+ message))
  ∧ display s' !! "main-content" = display s !! "main-content"
  ∧ currentFilename s' = Some (u_filename data)
  ∧ currentCleanedFilename s' = Some (u_filename data)
  ∧ columns s' = u_columns data
  ∧ columnSelect s' = columnSelect s
  ∧ plotTypeSelect s' = plotTypeSelect s
  ∧ (u_insights data = None →
     missing_values_options s' = missing_values_options s
     ∧ outlier_options s' = outlier_options s
     ∧ normalize_options s' = normalize_options s)
  ∧ (is_Some (u_insights data) →
     missing_values_options s' = [] ∧ outlier_options s' = []
     ∧ normalize_options s' = []).
Proof.
  intros Hacc Hmissing s'. subst s'.
  rewrite upload_settled_eval, Hacc. proj. rewrite displayInitialData_eval. proj.
  destruct (u_insights data) as [insights|] eqn:Hins; proj.
  - destruct Hmissing as [Hcols|[=]]. rewrite Hcols. proj. looks.
    split; [by eexists|]. do 6 (split; [done|]). split; [done|done].
  - looks. split; [by eexists|]. do 6 (split; [done|]).
    split; [done|]. by intros [? [=]].
Qed.

Lemma incomplete_upload_moves_file_names_witness :
  let r : fetched UploadData :=
    Resolved (Build_Response true 200 "OK"
      (Json {| u_error := None; u_filename := "next.csv";
               u_columns := Some the_columns; u_preview := "<table></table>";
               u_insights := None |})) in
  ∃ data,
    upload_accepted r = Some data
    ∧ u_insights data = None
    ∧ currentFilename (upload_settled r initial).2 = Some "next.csv"
    ∧ inner (upload_settled r initial).2 !! "upload-error" =
        Some ("Upload failed: " +:+ type_error "description").
Proof.
  intros r. eexists. split; [reflexivity|]. split; [reflexivity|].
  destruct (incomplete_upload_moves_file_names initial r _ eq_refl
              (or_intror eq_refl)) as (_ & _ & Hname & _).
  split; [exact Hname|]. vm_compute. reflexivity.
Defined.
